(** * share-note: the upload coordinator and the shared-note reconciliation

    A shallow embedding of [src/main.ts] (class [SharePlugin]) and of the
    note-management view (class [NoteManagement], method [getNotes]),
    together with the properties their specification states.

    JavaScript objects used as dictionaries (the YAML frontmatter of a note)
    are finite maps; the array of shared notes fetched from the server is a
    list updated by index; [async] code is sequential code in a monad that
    threads the state of the host application and carries thrown errors. *)

From Stdlib Require Import ZArith Lia.
From Stdlib Require Import Ascii.
From stdpp Require Import base option list strings gmap pretty.

Set Default Proof Using "Type".

(* ================================================================= *)
(** * JavaScript conventions *)

Module Js.

(** An [Error] object; only its [message] is ever inspected. *)
Record Error : Type := mkError { message : string }.

(** What a [throw] or a rejected promise carries. JavaScript lets any value
    be thrown: an [Error] object (or any other value with a string
    [message]), [undefined] or [null], or a value that has no string under
    [message], such as a primitive. *)
Inductive Thrown : Type :=
| Err (e : Error)
| Undefined
| Null
| Other.

(** How a call ends: it returns a value or it throws. For an [async]
    function this is whether the awaited promise fulfils or rejects. *)
Inductive Completion (A : Type) : Type :=
| Return (a : A)
| Throw (e : Thrown).
Global Arguments Return {A} a.
Global Arguments Throw {A} e.

(** The [TypeError] of reading a property of [undefined] or [null], with
    the message V8 gives it. *)
Definition TypeError_reading (nothing property : string) : Error :=
  mkError ("Cannot read properties of " +:+ nothing
           +:+ " (reading '" +:+ property +:+ "')").

(** The property read [e.message] on a thrown value: a string when there
    is one, [undefined] when there is none, and a [TypeError] when the
    value is [undefined] or [null]. *)
Definition read_message (e : Thrown) : Completion (option string) :=
  match e with
  | Err e => Return (Some (message e))
  | Other => Return None
  | Undefined => Throw (Err (TypeError_reading "undefined" "message"))
  | Null => Throw (Err (TypeError_reading "null" "message"))
  end.

(** Truthiness of a string, as tested by [if (s)] and [!s]: every string
    but the empty one is truthy. *)
Definition truthy (s : string) : bool := negb (String.eqb s "").

End Js.

(** An [Error] object is a value that can be thrown. *)
Coercion Js.Err : Js.Error >-> Js.Thrown.

(** The values that have no properties to read. *)
Definition nullish (thrown : Js.Thrown) : Prop :=
  thrown = Js.Undefined ∨ thrown = Js.Null.

(* ================================================================= *)
(** * Data model *)

(** [interface NoteItem]: one shared note as listed by the server. *)
Module NoteItem.
Record t : Type := mk {
  id : string;             (* Shared note ID *)
  updated : string;
  path : option string     (* Vault path to the local note *)
}.

(** The assignment [row.path = p]. *)
Definition set_path (row : t) (p : string) : t :=
  mk (id row) (updated row) (Some p).
End NoteItem.

Global Instance NoteItem_eq_dec : EqDecision NoteItem.t.
Proof. solve_decision. Defined.

(** Obsidian's [TFile]; [path] is the vault path, [extension] the suffix. *)
Module TFile.
Record t : Type := mk { path : string; extension : string }.
End TFile.

Global Instance TFile_eq_dec : EqDecision TFile.t.
Proof. solve_decision. Defined.

(** Obsidian's [CachedMetadata]: the parsed frontmatter of a note, when it
    has one. Frontmatter is a JavaScript object used as a dictionary. *)
Module CachedMetadata.
Record t : Type := mk { frontmatter : option (gmap string string) }.
End CachedMetadata.

(** The result of [parseExistingShareUrl], of which [getNotes] reads the
    [filename]: the shared note ID that the link encodes. *)
Module SharedUrl.
Record t : Type := mk { filename : string }.
End SharedUrl.

(** [enum StatusType] of [StatusMessage.ts]: the two members the plugin
    class uses. *)
Inductive StatusType : Type := StatusType_Error | StatusType_Success.

(** [interface ShareSettings] of [settings.ts]. [uid], [apiKey] and
    [yamlField] are the fields [main.ts] reads and writes.
    Modelled from the spec: [clipboard], the user's default
    clipboard-on-share preference that the share operation consults. *)
Module ShareSettings.
Record t : Type := mk {
  uid : string;
  apiKey : string;
  yamlField : string;
  clipboard : bool
}.

(** The assignment [settings.uid = u]. *)
Definition set_uid (s : t) (u : string) : t :=
  mk u (apiKey s) (yamlField s) (clipboard s).
End ShareSettings.

(** What [loadData()] resolves to when the plugin has saved data: a JSON
    object holding some or all of the settings. *)
Module SavedData.
Record t : Type := mk {
  uid : option string;
  apiKey : option string;
  yamlField : option string;
  clipboard : option bool
}.

(** [saveData(settings)] stores every field. *)
Definition of_settings (s : ShareSettings.t) : t :=
  mk (Some (ShareSettings.uid s)) (Some (ShareSettings.apiKey s))
     (Some (ShareSettings.yamlField s)) (Some (ShareSettings.clipboard s)).
End SavedData.

(** Modelled from the spec: [class Note] of [note.ts], which is not among
    the sources, as far as [uploadNote] drives it. Its two recognised
    options are flags, off in a new note, that [forceUpload()] and
    [forceClipboard()] switch on. *)
Module Note.
Record t : Type := mk { isForceUpload : bool; isForceClipboard : bool }.

(** [new Note(plugin)] *)
Definition new : t := mk false false.
(** [note.forceUpload()] *)
Definition forceUpload (n : t) : t := mk true (isForceClipboard n).
(** [note.forceClipboard()] *)
Definition forceClipboard (n : t) : t := mk (isForceUpload n) true.
End Note.

(* ================================================================= *)
(** * The host application *)

(** Effects observable from outside the plugin, in the order they happen. *)
Inductive Event : Type :=
| ApiGet (endpoint : string)                           (* api.get(endpoint) *)
| ApiUpload (path : string) (existing : option string) (* create/update of a share *)
| ConsoleLog (e : Js.Thrown)                           (* console.log(e) *)
| StatusMessage (text : string) (type : option StatusType) (* new StatusMessage(..) *)
| StatusHide                                           (* note.status.hide() *)
| ClipboardWrite (text : string)                       (* clipboard.writeText(..) *)
| SaveData (d : SavedData.t).                          (* plugin.saveData(..) *)

Global Instance StatusType_eq_dec : EqDecision StatusType.
Proof. solve_decision. Defined.
Global Instance Error_eq_dec : EqDecision Js.Error.
Proof. solve_decision. Defined.
Global Instance Thrown_eq_dec : EqDecision Js.Thrown.
Proof. solve_decision. Defined.
Global Instance SavedData_eq_dec : EqDecision SavedData.t.
Proof. solve_decision. Defined.
Global Instance Event_eq_dec : EqDecision Event.
Proof. solve_decision. Defined.

(** A network call, as opposed to a local effect. *)
Definition is_network (ev : Event) : bool :=
  match ev with
  | ApiGet _ | ApiUpload _ _ => true
  | _ => false
  end.

Definition is_upload (ev : Event) : bool :=
  match ev with
  | ApiUpload _ _ => true
  | _ => false
  end.

(** Modelled from the spec: what the create/update endpoints answer on
    success, the remote id and the link. *)
Module UploadResponse.
Record t : Type := mk { id : string; link : string }.
End UploadResponse.

(** The state the plugin runs against. *)
Module World.
Record t : Type := mk {
  markdownFiles : list TFile.t;                   (* app.vault.getMarkdownFiles() *)
  metadataCache : gmap string CachedMetadata.t;   (* app.metadataCache, by path *)
  activeFile : TFile.t;                           (* the note in the editor *)
  settings : ShareSettings.t;                     (* plugin.settings *)
  data : option SavedData.t;                      (* the plugin's data.json *)
  accountNotes : Js.Completion (list NoteItem.t); (* answer to GET /v1/account/notes *)
  uploadAnswer : list Event → Js.Completion UploadResponse.t;
                                                  (* answer to a create/update, given the past *)
  statusVisible : bool;                           (* the "in progress" indicator *)
  now : N;                                        (* Date.now() *)
  random : string;                                (* Math.random(), printed *)
  events : list Event                             (* what happened so far *)
}.

Definition emit (ev : Event) (w : t) : t :=
  mk (markdownFiles w) (metadataCache w) (activeFile w) (settings w) (data w)
     (accountNotes w) (uploadAnswer w) (statusVisible w) (now w) (random w)
     (events w ++ [ev]).

Definition set_settings (s : ShareSettings.t) (w : t) : t :=
  mk (markdownFiles w) (metadataCache w) (activeFile w) s (data w)
     (accountNotes w) (uploadAnswer w) (statusVisible w) (now w) (random w)
     (events w).

Definition set_data (d : option SavedData.t) (w : t) : t :=
  mk (markdownFiles w) (metadataCache w) (activeFile w) (settings w) d
     (accountNotes w) (uploadAnswer w) (statusVisible w) (now w) (random w)
     (events w).

Definition set_metadataCache (c : gmap string CachedMetadata.t) (w : t) : t :=
  mk (markdownFiles w) c (activeFile w) (settings w) (data w)
     (accountNotes w) (uploadAnswer w) (statusVisible w) (now w) (random w)
     (events w).

Definition set_statusVisible (b : bool) (w : t) : t :=
  mk (markdownFiles w) (metadataCache w) (activeFile w) (settings w) (data w)
     (accountNotes w) (uploadAnswer w) b (now w) (random w)
     (events w).
End World.

(* ================================================================= *)
(** * Sequential code with exceptions *)

Definition M (A : Type) : Type := World.t → Js.Completion A * World.t.

Global Instance M_ret : MRet M := λ A a w, (Js.Return a, w).

Global Instance M_bind : MBind M := λ A B f m w,
  match m w with
  | (Js.Return a, w') => f a w'
  | (Js.Throw e, w') => (Js.Throw e, w')
  end.

Definition throw {A} (e : Js.Thrown) : M A := λ w, (Js.Throw e, w).

(** A computation that touches no state. *)
Definition lift {A} (c : Js.Completion A) : M A := λ w, (c, w).

(** [try { body } catch (e) { handler e }] *)
Definition try_catch {A} (body : M A) (handler : Js.Thrown → M A) : M A := λ w,
  match body w with
  | (Js.Return a, w') => (Js.Return a, w')
  | (Js.Throw e, w') => handler e w'
  end.

Definition get {A} (f : World.t → A) : M A := λ w, (Js.Return (f w), w).
Definition modify (f : World.t → World.t) : M unit := λ w, (Js.Return tt, f w).
Definition emit (ev : Event) : M unit := modify (World.emit ev).

(** ** The primitives of the host and of the plugin's collaborators *)

(** [api.get(endpoint)]: one request, answered by the server or failing.
    The answer is a fresh array, which no one else holds. *)
Definition api_get (endpoint : string) : M (list NoteItem.t) := λ w,
  (World.accountNotes w, World.emit (ApiGet endpoint) w).

Definition console_log (e : Js.Thrown) : M unit := emit (ConsoleLog e).

(** [new StatusMessage(text, type)] shows a notice. *)
Definition new_StatusMessage (text : string) (type : option StatusType) : M unit :=
  emit (StatusMessage text type).

(** [note.status.hide()] *)
Definition status_hide : M unit :=
  _ ← emit StatusHide; modify (World.set_statusVisible false).

(** [navigator.clipboard.writeText(text)]. The write is taken to succeed;
    [copyShareLink] awaits it outside any [try], so a write that the
    browser refuses would reach the caller of [copyShareLink]. *)
Definition clipboard_writeText (text : string) : M unit := emit (ClipboardWrite text).

(** [app.metadataCache.getFileCache(file)] *)
Definition getFileCache (file : TFile.t) : M (option CachedMetadata.t) :=
  get (λ w, World.metadataCache w !! TFile.path file).

(* ================================================================= *)
(** * Reconciliation: [NoteManagement.getNotes] *)

Section NoteManagement.

(** [parseExistingShareUrl] of [api.ts]: the shared URL a link denotes, or
    nothing when the string is not a share link. *)
Variable parseExistingShareUrl : string → option SharedUrl.t.

(** Modelled from the spec: the helper [plugin.field(YamlField.link)], which
    [main.ts] does not define. The link of a shared note is stored under the
    frontmatter field "<yamlField>_link". *)
Definition field_link (settings : ShareSettings.t) : string :=
  ShareSettings.yamlField settings +:+ "_link".

(** [metadata?.frontmatter?.[key]] *)
Definition frontmatter_get (metadata : option CachedMetadata.t) (key : string)
  : option string :=
  match metadata with
  | Some m =>
      match CachedMetadata.frontmatter m with
      | Some fm => fm !! key
      | None => None
      end
  | None => None
  end.

(** The body of the [forEach] callback, on the array [sharedNotes]. *)
Definition visit (cache : gmap string CachedMetadata.t) (key : string)
    (sharedNotes : list NoteItem.t) (file : TFile.t) : list NoteItem.t :=
  let metadata := cache !! TFile.path file in
  match frontmatter_get metadata key with
  | Some shareLink =>
      if Js.truthy shareLink then
        match parseExistingShareUrl shareLink with
        | Some parsed =>
            match list_find (λ x, NoteItem.id x = SharedUrl.filename parsed) sharedNotes with
            | Some (i, row) =>
                (* Found a local note which maps to this shared ID *)
                <[i := NoteItem.set_path row (TFile.path file)]> sharedNotes
            | None => sharedNotes
            end
        | None => sharedNotes
        end
      else sharedNotes
  | None => sharedNotes
  end.

(** [getNotes]. The local [sharedNotes] starts as the empty array and is
    assigned once, by the fetch, which is the only statement of the [try]
    block that can throw: when it does, [sharedNotes] is still the empty
    array after the [catch]; when it does not, [sharedNotes] is the fetched
    array, on which the callback then works. *)
Definition getNotes : M (list NoteItem.t) :=
  let sharedNotes : list NoteItem.t := [] in
  try_catch
    ((* Get the notes from the server *)
     sharedNotes ← api_get "/v1/account/notes";
     (* Get the local list of shared vault notes *)
     files ← get World.markdownFiles;
     cache ← get World.metadataCache;
     key ← get (λ w, field_link (World.settings w));
     mret (foldl (visit cache key) sharedNotes files))
    (λ e, _ ← console_log e; mret sharedNotes).

(** ** What a document resolves to *)

(** The shared note ID a document's stored link denotes: the link must be
    present, non-empty, and a share link. *)
Definition resolve (cache : gmap string CachedMetadata.t) (key : string)
    (file : TFile.t) : option string :=
  match frontmatter_get (cache !! TFile.path file) key with
  | Some shareLink =>
      if Js.truthy shareLink
      then SharedUrl.filename <$> parseExistingShareUrl shareLink
      else None
  | None => None
  end.

(** [row.path = p] on the first row whose id is [k], if any. *)
Definition annotate (k p : string) (sharedNotes : list NoteItem.t) : list NoteItem.t :=
  match list_find (λ x, NoteItem.id x = k) sharedNotes with
  | Some (i, row) => <[i := NoteItem.set_path row p]> sharedNotes
  | None => sharedNotes
  end.

(** The last document, in vault order, that resolves to [k]. *)
Definition last_resolving (cache : gmap string CachedMetadata.t) (key : string)
    (files : list TFile.t) (k : string) : option TFile.t :=
  last (filter (λ f, resolve cache key f = Some k) files).

(** Position [i] is the first one in [l] whose item has the id [k]. *)
Definition first_with_id (l : list NoteItem.t) (k : string) (i : nat) : Prop :=
  fst <$> list_find (λ x, NoteItem.id x = k) l = Some i.

Global Instance first_with_id_dec l k i : Decision (first_with_id l k i).
Proof. unfold first_with_id. apply _. Defined.

(** The joined view, item by item: the first item of each id takes the
    path of the last document resolving to that id; every other item is
    as fetched. *)
Definition joined (cache : gmap string CachedMetadata.t) (key : string)
    (files : list TFile.t) (fetched : list NoteItem.t)
    (i : nat) (x : NoteItem.t) : NoteItem.t :=
  if decide (first_with_id fetched (NoteItem.id x) i) then
    match last_resolving cache key files (NoteItem.id x) with
    | Some d => NoteItem.set_path x (TFile.path d)
    | None => x
    end
  else x.

End NoteManagement.

(* ================================================================= *)
(** * The plugin class: [SharePlugin] of [main.ts] *)

(** [Object.assign({}, defaults, data)]: the saved fields override the
    defaults; [loadData()] gives [null] when nothing was saved. *)
Definition assign (defaults : ShareSettings.t) (data : option SavedData.t)
  : ShareSettings.t :=
  match data with
  | None => defaults
  | Some d =>
      ShareSettings.mk
        (default (ShareSettings.uid defaults) (SavedData.uid d))
        (default (ShareSettings.apiKey defaults) (SavedData.apiKey d))
        (default (ShareSettings.yamlField defaults) (SavedData.yamlField d))
        (default (ShareSettings.clipboard defaults) (SavedData.clipboard d))
  end.

(** [plugin.loadData()] and [plugin.saveData(settings)] *)
Definition loadData : M (option SavedData.t) := get World.data.

Definition saveData (s : ShareSettings.t) : M unit :=
  _ ← emit (SaveData (SavedData.of_settings s));
  modify (World.set_data (Some (SavedData.of_settings s))).

Section SharePlugin.

(** [DEFAULT_SETTINGS] of [settings.ts] and [hash] of [crypto.ts]. *)
Variable DEFAULT_SETTINGS : ShareSettings.t.
Variable hash : string → string.

(** [note.share()], the upload of the note in the editor. *)
Variable share : Note.t → M unit.

Definition loadSettings : M unit :=
  d ← loadData;
  modify (World.set_settings (assign DEFAULT_SETTINGS d)).

Definition saveSettings : M unit :=
  s ← get World.settings;
  saveData s.

(** The seed ['' + Date.now() + Math.random()]. *)
Definition uid_seed (w : World.t) : string :=
  ("" +:+ pretty (World.now w)) +:+ World.random w.

(** [onload], up to the point where the settings are complete. What
    follows in the source registers the settings tab, the protocol handler,
    the two commands and the file-menu entry; none of them runs during
    [onload]. *)
Definition onload : M unit :=
  _ ← loadSettings;
  s ← get World.settings;
  if negb (Js.truthy (ShareSettings.uid s)) then
    (* Set up a random UID if the user does not already have one *)
    seed ← get uid_seed;
    _ ← modify (World.set_settings (ShareSettings.set_uid s (hash seed)));
    saveSettings
  else mret tt.

(** [uploadNote(forceUpload = false, forceClipboard = false)]. The [catch]
    block reads [e.message] on whatever was thrown, so it throws itself
    when that is [undefined] or [null]; [note.status.hide()] comes after
    the [try]/[catch], not in a [finally], and is skipped then. *)
Definition uploadNote (forceUpload forceClipboard : bool) : M unit :=
  let note := Note.new in
  let note := if forceUpload then Note.forceUpload note else note in
  let note := if forceClipboard then Note.forceClipboard note else note in
  _ ← try_catch (share note)
        (λ e,
           message ← lift (Js.read_message e);
           match message with
           | Some message =>
               if String.eqb message "Unknown error" then
                 new_StatusMessage
                   "There was an error uploading the note, please try again."
                   (Some StatusType_Error)
               else mret tt
           | None => mret tt
           end);
  status_hide. (* clean up status just in case *)

(** [copyShareLink(file)] *)
Definition copyShareLink (file : TFile.t) : M unit :=
  meta ← getFileCache file;
  settings ← get World.settings;
  match frontmatter_get meta (ShareSettings.yamlField settings +:+ "_link") with
  | Some shareLink =>
      if Js.truthy shareLink then
        (* The note is already shared, copy the link to the clipboard *)
        _ ← clipboard_writeText shareLink;
        new_StatusMessage "Shared link copied to clipboard" None
      else
        uploadNote false true
  | None =>
      (* The note is not already shared, share it first *)
      uploadNote false true
  end.

End SharePlugin.

(* ================================================================= *)
(** * The share operation of a note *)

(** Modelled from the spec: the ShareRecord a shared document keeps in its
    metadata block, the remote id, the link and the time of the last
    successful upload. *)
Module ShareRecord.
Record t : Type := mk { id : string; link : string; updated : string }.
End ShareRecord.

Module NoteShare.
Section NoteShare.

(** The policy that judges a document's content unchanged since the
    stored record was written. The specification leaves it open; it may
    read anything of the state. *)
Variable content_unchanged : World.t → TFile.t → ShareRecord.t → bool.

(** Modelled from the spec: the names of the sibling fields of the link,
    which no source file shows; they sit under the same prefix. *)
Definition field_id (settings : ShareSettings.t) : string :=
  ShareSettings.yamlField settings +:+ "_id".

(** Modelled from the spec: likewise, the field of the timestamp. *)
Definition field_updated (settings : ShareSettings.t) : string :=
  ShareSettings.yamlField settings +:+ "_updated".

(** Modelled from the spec: the Share-State Store's [read], absent from the
    sources. It looks the three fields up and gives nothing when one is
    missing. *)
Definition read (settings : ShareSettings.t) (meta : option CachedMetadata.t)
  : option ShareRecord.t :=
  match frontmatter_get meta (field_link settings),
        frontmatter_get meta (field_id settings),
        frontmatter_get meta (field_updated settings) with
  | Some l, Some i, Some u => Some (ShareRecord.mk i l u)
  | _, _, _ => None
  end.

(** Modelled from the spec: the Share-State Store's [write], absent from
    the sources. It upserts the three fields and keeps every other field. *)
Definition write (settings : ShareSettings.t) (r : ShareRecord.t)
    (meta : option CachedMetadata.t) : CachedMetadata.t :=
  let fm :=
    match meta with
    | Some m => default ∅ (CachedMetadata.frontmatter m)
    | None => ∅
    end in
  CachedMetadata.mk
    (Some (<[field_link settings := ShareRecord.link r]>
          (<[field_id settings := ShareRecord.id r]>
          (<[field_updated settings := ShareRecord.updated r]> fm)))).

(** Modelled from the spec: the create/update request of the remote API,
    absent from the sources. It is one network call, answered by the
    server according to what happened so far. *)
Definition api_upload (path : string) (existing : option string)
  : M UploadResponse.t := λ w,
  (World.uploadAnswer w (World.events w), World.emit (ApiUpload path existing) w).

(** Modelled from the spec: step 5 of the Upload Coordinator. The link is
    copied when the note forces it or the user's setting asks for it, with
    a success notification. *)
Definition clipboard_step (note : Note.t) (link : string) : M unit :=
  settings ← get World.settings;
  if Note.isForceClipboard note || ShareSettings.clipboard settings then
    _ ← clipboard_writeText link;
    new_StatusMessage "Shared link copied to clipboard" (Some StatusType_Success)
  else mret tt.

(** Modelled from the spec: steps 3 and 4 of the Upload Coordinator. The
    upload comes first; only when it succeeded is the record written,
    with the returned id and link and the current time. *)
Definition upload (note : Note.t) (file : TFile.t) (existing : option string)
  : M unit :=
  resp ← api_upload (TFile.path file) existing;
  settings ← get World.settings;
  stamp ← get (λ w, pretty (World.now w));
  let r := ShareRecord.mk (UploadResponse.id resp) (UploadResponse.link resp) stamp in
  _ ← modify (λ w,
        World.set_metadataCache
          (<[TFile.path file :=
               write settings r (World.metadataCache w !! TFile.path file)]>
             (World.metadataCache w)) w);
  clipboard_step note (UploadResponse.link resp).

(** Modelled from the spec: [Note.share] of [note.ts], absent from the
    sources, after steps 1 to 5 of the Upload Coordinator. Steps 6 and 7
    are [uploadNote]'s. *)
Definition share (note : Note.t) : M unit :=
  file ← get World.activeFile;
  meta ← getFileCache file;
  settings ← get World.settings;
  unchanged ← get (λ w, content_unchanged w file);
  match read settings meta with
  | Some r =>
      if negb (Note.isForceUpload note) && unchanged r
      then clipboard_step note (ShareRecord.link r)
      else upload note file (Some (ShareRecord.id r))
  | None => upload note file None
  end.

End NoteShare.
End NoteShare.

(** The events of [w'] that happened after [w]. *)
Definition events_since (w w' : World.t) : list Event :=
  drop (length (World.events w)) (World.events w').

(** The shared link stored with the note in the editor. *)
Definition stored_link (w : World.t) : option string :=
  ShareRecord.link <$>
    NoteShare.read (World.settings w)
      (World.metadataCache w !! TFile.path (World.activeFile w)).

(* ================================================================= *)
(** * A link parser and a vault to run the code on *)

Module Sample.

(** The pieces of [s] between slashes; [seg] is the piece being read. *)
Fixpoint segments (s seg : string) : list string :=
  match s with
  | EmptyString => [seg]
  | String c s' =>
      if Ascii.eqb c "/"%char then seg :: segments s' ""
      else segments s' (seg +:+ String c "")
  end.

(** Modelled from the spec: [parseExistingShareUrl] of [api.ts], absent
    from the sources. A share link is an https URL whose final path segment
    is the shared note ID; any other string is not a share link. *)
Definition parseExistingShareUrl (url : string) : option SharedUrl.t :=
  if String.prefix "https://" url then
    match segments (String.substring 8 (String.length url - 8) url) "" with
    | _host :: rest =>
        match last rest with
        | Some name =>
            if Js.truthy name then Some (SharedUrl.mk name) else None
        | None => None
        end
    | [] => None
    end
  else None.

Definition settings : ShareSettings.t := ShareSettings.mk "" "" "share" false.

Definition note (path : string) : TFile.t := TFile.mk path "md".

(** Frontmatter holding just a stored link. *)
Definition linked (link : string) : CachedMetadata.t :=
  CachedMetadata.mk (Some {[ "share_link" := link ]}).

Definition item (id : string) : NoteItem.t := NoteItem.mk id "2024-01-01" None.

Definition created : UploadResponse.t :=
  UploadResponse.mk "n1" "https://host/n1".

(** A vault seen through its files and their metadata, with a server that
    lists [notes] and answers every upload with [answer]. *)
Definition world (files : list TFile.t) (cache : gmap string CachedMetadata.t)
    (notes : Js.Completion (list NoteItem.t))
    (answer : Js.Completion UploadResponse.t) : World.t :=
  World.mk files cache (note "d.md") settings None notes (λ _, answer)
    false 1700000000000 "0.25" [].

(** Remote notes a, b, c; one document sharing b. *)
Definition one_document : World.t :=
  world [note "x.md"; note "y.md"]
    (<["y.md" := linked "https://host/b"]> ∅)
    (Js.Return [item "a"; item "b"; item "c"]) (Js.Return created).

(** Two documents sharing b, and b listed twice by the server. *)
Definition duplicates : World.t :=
  world [note "y1.md"; note "x.md"; note "y2.md"]
    (<["y1.md" := linked "https://host/b"]>
       (<["y2.md" := linked "https://host/b"]> ∅))
    (Js.Return [item "a"; item "b"; item "c"; item "b"]) (Js.Return created).

(** A document whose link field is not a share link. *)
Definition garbage_link : World.t :=
  world [note "x.md"; note "y.md"]
    (<["x.md" := linked "not a link"]>
       (<["y.md" := linked "https://host/b"]> ∅))
    (Js.Return [item "a"; item "b"; item "c"]) (Js.Return created).

(** The note in the editor has an empty link field. *)
Definition empty_link : World.t :=
  world [note "d.md"] (<["d.md" := linked ""]> ∅)
    (Js.Return []) (Js.Return created).

(** The note in the editor is shared already. *)
Definition shared : World.t :=
  world [note "d.md"] (<["d.md" := linked "https://host/n1"]> ∅)
    (Js.Return [item "n1"]) (Js.Return created).

(** Nothing was saved yet, and the saved data of a later start. *)
Definition first_start : World.t :=
  world [] ∅ (Js.Return []) (Js.Return created).

Definition later_start : World.t :=
  World.set_data
    (Some (SavedData.mk (Some "0123abcd") (Some "key") None None)) first_start.

Definition hash (s : string) : string := "sha256:" +:+ s.

(** A share operation that rejects with an error of the given message,
    and one that uploads the note without further ado. *)
Definition failing (message : string) (note : Note.t) : M unit :=
  throw (Js.mkError message).

Definition uploading (note : Note.t) : M unit :=
  emit (ApiUpload "d.md" None).

(** A share operation that shows the in-progress indicator and then
    rejects with no reason, as [Promise.reject()] does. *)
Definition rejecting_undefined (note : Note.t) : M unit :=
  _ ← modify (World.set_statusVisible true);
  throw Js.Undefined.

(** The policy that judges every document unchanged. *)
Definition always_unchanged (w : World.t) (file : TFile.t) (r : ShareRecord.t)
  : bool := true.

(** The note in the editor was never shared. *)
Definition never_shared : World.t :=
  world [note "d.md"] ∅ (Js.Return []) (Js.Return created).

(** The server is unreachable. *)
Definition offline : World.t :=
  world [note "y.md"] (<["y.md" := linked "https://host/b"]> ∅)
    (Js.Throw (Js.mkError "Network error"))
    (Js.Throw (Js.mkError "Network error")).

End Sample.

(* ================================================================= *)
(** * Statements of the specification that the code is compared with *)

(** The stored link of [file] parses to the id [k]. *)
Definition link_parses_to (parse : string → option SharedUrl.t) (w : World.t)
    (file : TFile.t) (k : string) : Prop :=
  ∃ link parsed,
    frontmatter_get (World.metadataCache w !! TFile.path file)
      (field_link (World.settings w)) = Some link
    ∧ parse link = Some parsed
    ∧ SharedUrl.filename parsed = k.

(** The join as the specification words it: the result is the fetched
    list, an item carries a document's path exactly when that document's
    stored link parses to the item's id, and an item that no document
    matches has no path. *)
Definition carries_path_iff_link_parses (parse : string → option SharedUrl.t)
    (w : World.t) : Prop :=
  ∀ fetched, World.accountNotes w = Js.Return fetched →
    ∃ result,
      fst (getNotes parse w) = Js.Return result
      ∧ NoteItem.id <$> result = NoteItem.id <$> fetched
      ∧ (∀ item file, item ∈ result → file ∈ World.markdownFiles w →
           NoteItem.path item = Some (TFile.path file)
           ↔ link_parses_to parse w file (NoteItem.id item))
      ∧ (∀ item, item ∈ result →
           (∀ file, file ∈ World.markdownFiles w →
              ¬ link_parses_to parse w file (NoteItem.id item)) →
           NoteItem.path item = None).

(** The error handling of [uploadNote] as the specification words it: a
    failure with the sentinel message is notified, and any other failure
    reaches the caller. *)
Definition notifies_sentinel_propagates_others (share : Note.t → M unit)
    (w : World.t) : Prop :=
  ∀ forceUpload forceClipboard (e : Js.Error) w1,
    share (Note.mk forceUpload forceClipboard) w = (Js.Throw e, w1) →
    (Js.message e = "Unknown error" →
       StatusMessage "There was an error uploading the note, please try again."
         (Some StatusType_Error)
       ∈ events_since w1 (snd (uploadNote share forceUpload forceClipboard w)))
    ∧ (Js.message e ≠ "Unknown error" →
         fst (uploadNote share forceUpload forceClipboard w) = Js.Throw e).

(** [copyShareLink] as the specification words it: whatever value the
    frontmatter holds under the link field is copied, and nothing else
    happens; without a value the note is shared with the clipboard forced. *)
Definition copies_any_stored_value (share : Note.t → M unit) (file : TFile.t)
    (w : World.t) : Prop :=
  match frontmatter_get (World.metadataCache w !! TFile.path file)
          (ShareSettings.yamlField (World.settings w) +:+ "_link") with
  | Some value =>
      copyShareLink share file w =
        (Js.Return tt,
         World.emit (StatusMessage "Shared link copied to clipboard" None)
           (World.emit (ClipboardWrite value) w))
  | None => copyShareLink share file w = uploadNote share false true w
  end.

(** Idempotence of sharing as the specification words it: with content
    judged unchanged throughout, two calls in a row without forcing issue
    at most one upload, the second makes no network call, and the stored
    link is the same after both. *)
Definition second_share_is_free
    (content_unchanged : World.t → TFile.t → ShareRecord.t → bool)
    (w : World.t) : Prop :=
  ∀ forceClipboard1 forceClipboard2,
    let share := NoteShare.share content_unchanged in
    let w1 := snd (uploadNote share false forceClipboard1 w) in
    let w2 := snd (uploadNote share false forceClipboard2 w1) in
    (∀ w' r, content_unchanged w' (World.activeFile w) r = true) →
    length (filter (λ ev, is_upload ev) (events_since w w2)) ≤ 1
    ∧ filter (λ ev, is_network ev) (events_since w1 w2) = []
    ∧ stored_link w2 = stored_link w1.

(** The state after the clipboard step of a share. *)
Definition copied (note : Note.t) (link : string) (w : World.t) : World.t :=
  if Note.isForceClipboard note || ShareSettings.clipboard (World.settings w) then
    World.emit (StatusMessage "Shared link copied to clipboard" (Some StatusType_Success))
      (World.emit (ClipboardWrite link) w)
  else w.

(** The state after [note.status.hide()]. *)
Definition hidden (w : World.t) : World.t :=
  World.set_statusVisible false (World.emit StatusHide w).

(** The state after a successful upload answered with [resp], before the
    clipboard step. *)
Definition uploaded (existing : option string) (resp : UploadResponse.t)
    (w : World.t) : World.t :=
  let path := TFile.path (World.activeFile w) in
  let r := ShareRecord.mk (UploadResponse.id resp) (UploadResponse.link resp)
             (pretty (World.now w)) in
  World.set_metadataCache
    (<[path := NoteShare.write (World.settings w) r (World.metadataCache w !! path)]>
       (World.metadataCache w))
    (World.emit (ApiUpload path existing) w).

(* ================================================================= *)
(** * The callbacks that [onload] registers *)

(** [ObsidianProtocolData]: the action of an obsidian:// URI and its other
    parameters, by name. *)
Module ProtocolData.
Record t : Type := mk { action : string; params : gmap string string }.

(** [data.key] *)
Definition key (data : t) : option string := params data !! "key".
End ProtocolData.

(** A notice that dismisses itself: [new StatusMessage(text, type, duration)]. *)
Module TimedNotice.
Record t : Type := mk { text : string; type : StatusType; duration : Z }.
End TimedNotice.

(** The plugin together with its settings tab. *)
Module Plugin.
Record t : Type := mk {
  world : World.t;
  apikeyEl : option string;     (* settingsPage.apikeyEl and the text it shows,
                                   once the tab built the field *)
  notices : list TimedNotice.t  (* timed notices, oldest first *)
}.
End Plugin.

(** The assignment [settings.apiKey = key]. *)
Definition set_apiKey (s : ShareSettings.t) (key : string) : ShareSettings.t :=
  ShareSettings.mk (ShareSettings.uid s) key (ShareSettings.yamlField s)
    (ShareSettings.clipboard s).

(** The handler registered for the protocol action 'share-note'. The
    guard is [data.action === 'share-note' && data.key && apikeyEl], tested
    from left to right. *)
Definition protocolHandler (data : ProtocolData.t) (p : Plugin.t)
  : Js.Completion unit * Plugin.t :=
  if String.eqb (ProtocolData.action data) "share-note" then
    match ProtocolData.key data with
    | Some key =>
        if Js.truthy key then
          match Plugin.apikeyEl p with
          | Some _ =>
              let w := Plugin.world p in
              let w := World.set_settings (set_apiKey (World.settings w) key) w in
              match saveSettings w with
              | (Js.Return _, w) =>
                  (Js.Return tt,
                   Plugin.mk w (Some key)
                     (Plugin.notices p ++
                      [TimedNotice.mk
                         "Plugin successfully connected. You can now start sharing notes!"
                         StatusType_Success 6000]))
              | (Js.Throw e, w) =>
                  (Js.Throw e, Plugin.mk w (Plugin.apikeyEl p) (Plugin.notices p))
              end
          | None => (Js.Return tt, p)
          end
        else (Js.Return tt, p)
    | None => (Js.Return tt, p)
    end
  else (Js.Return tt, p).

(** The callbacks of the commands 'share-note' and 'force-upload':
    [uploadNote()] and [uploadNote(true)]. *)
Definition command_share_note (share : Note.t → M unit) : M unit :=
  uploadNote share false false.

Definition command_force_upload (share : Note.t → M unit) : M unit :=
  uploadNote share true false.

(** What the file menu is opened on: a file or a folder. *)
Inductive TAbstractFile : Type :=
| AbstractFile (file : TFile.t)
| AbstractFolder (path : string).

(** An entry of a menu: [item.setIcon], [item.setTitle], [item.onClick]. *)
Module MenuItem.
Record t : Type := mk { icon : string; title : string; onClick : M unit }.
End MenuItem.

(** The 'file-menu' callback: a markdown file gets the entry that copies
    its shared link; [menu.addItem] appends. *)
Definition file_menu (share : Note.t → M unit) (menu : list MenuItem.t)
    (file : TAbstractFile) : list MenuItem.t :=
  match file with
  | AbstractFile file =>
      if String.eqb (TFile.extension file) "md" then
        menu ++ [MenuItem.mk "share-2" "Copy shared link" (copyShareLink share file)]
      else menu
  | AbstractFolder _ => menu
  end.

(** ** States to compare runs of the code on *)

(** The same state with another vault listing, and with another answer of
    the server to the listing request. *)
Definition with_markdownFiles (files : list TFile.t) (w : World.t) : World.t :=
  World.mk files (World.metadataCache w) (World.activeFile w) (World.settings w)
    (World.data w) (World.accountNotes w) (World.uploadAnswer w)
    (World.statusVisible w) (World.now w) (World.random w) (World.events w).

Definition with_accountNotes (notes : Js.Completion (list NoteItem.t))
    (w : World.t) : World.t :=
  World.mk (World.markdownFiles w) (World.metadataCache w) (World.activeFile w)
    (World.settings w) (World.data w) notes (World.uploadAnswer w)
    (World.statusVisible w) (World.now w) (World.random w) (World.events w).

(** The link that [copyShareLink] finds stored with [file], if any. *)
Definition shareLink_of (w : World.t) (file : TFile.t) : option string :=
  frontmatter_get (World.metadataCache w !! TFile.path file)
    (ShareSettings.yamlField (World.settings w) +:+ "_link").

(** The test [if (shareLink)] on a property that may be missing. *)
Definition has_shareLink (w : World.t) (file : TFile.t) : bool :=
  match shareLink_of w file with
  | Some shareLink => Js.truthy shareLink
  | None => false
  end.

(** ** A plugin to run the callbacks on *)

Module SamplePlugin.

(** The URI obsidian://share-note?key=k-123 and one of another plugin. *)
Definition connect : ProtocolData.t :=
  ProtocolData.mk "share-note" {[ "key" := "k-123" ]}.

Definition foreign : ProtocolData.t :=
  ProtocolData.mk "open" {[ "key" := "k-123" ]}.

(** The plugin after its first start, with the settings tab displayed (an
    empty API key field) and before the tab was ever displayed. *)
Definition displayed : Plugin.t :=
  Plugin.mk
    (snd (onload Sample.settings Sample.hash Sample.first_start)) (Some "") [].

Definition undisplayed : Plugin.t :=
  Plugin.mk
    (snd (onload Sample.settings Sample.hash Sample.first_start)) None [].

End SamplePlugin.

(* ================================================================= *)
(** * Properties *)

(** Unfolding the sequencing of effects. *)
Ltac run_M :=
  unfold try_catch, mbind, M_bind, mret, M_ret, get, modify, emit.

(** The truthy strings are the non-empty ones. *)
Lemma truthy_true s : Js.truthy s = true ↔ s ≠ "".
Proof.
  unfold Js.truthy. rewrite negb_true_iff. split.
  - intros H ->. discriminate.
  - intros H. apply String.eqb_neq. exact H.
Qed.

Lemma truthy_false s : Js.truthy s = false ↔ s = "".
Proof. unfold Js.truthy. rewrite negb_false_iff. apply String.eqb_eq. Qed.

Lemma events_since_app w w' l :
  World.events w' = World.events w ++ l → events_since w w' = l.
Proof. unfold events_since. intros ->. apply drop_app_length. Qed.

(** ** Reconciliation *)

Section NoteManagementFacts.

Variable parseExistingShareUrl : string → option SharedUrl.t.
Variable cache : gmap string CachedMetadata.t.
Variable key : string.

Local Abbreviation visit := (visit parseExistingShareUrl cache key).
Local Abbreviation resolve := (resolve parseExistingShareUrl cache key).
Local Abbreviation last_resolving := (last_resolving parseExistingShareUrl cache key).
Local Abbreviation joined := (joined parseExistingShareUrl cache key).

Implicit Types (l fetched : list NoteItem.t) (files : list TFile.t).
Implicit Types (x row : NoteItem.t) (f file : TFile.t) (k p : string).

(** The callback is: resolve the document, then annotate. *)
Lemma visit_resolve l f :
  visit l f =
    match resolve f with
    | Some k => annotate k (TFile.path f) l
    | None => l
    end.
Proof.
  unfold visit, resolve, annotate.
  destruct (frontmatter_get _ _) as [shareLink|]; [|done].
  destruct (Js.truthy shareLink); [|done].
  by destruct (parseExistingShareUrl shareLink).
Qed.

Lemma set_path_id row p : NoteItem.id (NoteItem.set_path row p) = NoteItem.id row.
Proof. done. Qed.

Lemma set_path_updated row p :
  NoteItem.updated (NoteItem.set_path row p) = NoteItem.updated row.
Proof. done. Qed.

(** Annotating changes neither ids nor timestamps, nor the order. *)
Lemma annotate_ids k p l : NoteItem.id <$> annotate k p l = NoteItem.id <$> l.
Proof.
  unfold annotate. destruct (list_find _ l) as [[i row]|] eqn:Hfind; [|done].
  apply list_find_Some in Hfind as (Hi & _ & _).
  rewrite list_fmap_insert, set_path_id. apply list_insert_id.
  by rewrite list_lookup_fmap, Hi.
Qed.

Lemma annotate_updated k p l :
  NoteItem.updated <$> annotate k p l = NoteItem.updated <$> l.
Proof.
  unfold annotate. destruct (list_find _ l) as [[i row]|] eqn:Hfind; [|done].
  apply list_find_Some in Hfind as (Hi & _ & _).
  rewrite list_fmap_insert, set_path_updated. apply list_insert_id.
  by rewrite list_lookup_fmap, Hi.
Qed.

Lemma visit_ids l f : NoteItem.id <$> visit l f = NoteItem.id <$> l.
Proof. rewrite visit_resolve. destruct (resolve f); [apply annotate_ids|done]. Qed.

Lemma visit_updated l f : NoteItem.updated <$> visit l f = NoteItem.updated <$> l.
Proof.
  rewrite visit_resolve. destruct (resolve f); [apply annotate_updated|done].
Qed.

Lemma foldl_visit_ids files l :
  NoteItem.id <$> foldl visit l files = NoteItem.id <$> l.
Proof.
  revert l. induction files as [|f files IH]; intros l; simpl; [done|].
  by rewrite IH, visit_ids.
Qed.

Lemma foldl_visit_updated files l :
  NoteItem.updated <$> foldl visit l files = NoteItem.updated <$> l.
Proof.
  revert l. induction files as [|f files IH]; intros l; simpl; [done|].
  by rewrite IH, visit_updated.
Qed.

(** [find] sees only ids, so it picks the same position in two arrays
    that agree on ids. *)
Lemma list_find_same_ids k l l' :
  NoteItem.id <$> l = NoteItem.id <$> l' →
  fst <$> list_find (λ x, NoteItem.id x = k) l
  = fst <$> list_find (λ x, NoteItem.id x = k) l'.
Proof.
  revert l'. induction l as [|x l IH]; intros [|x' l']; simpl;
    intros Heq; try discriminate Heq; [done|].
  injection Heq as Hid Htl. rewrite Hid. case_decide; [done|].
  specialize (IH l' Htl).
  destruct (list_find _ l) as [[??]|], (list_find _ l') as [[??]|];
    simplify_eq/=; done.
Qed.

Lemma last_resolving_snoc files f k :
  last_resolving (files ++ [f]) k =
    if decide (resolve f = Some k) then Some f else last_resolving files k.
Proof.
  unfold last_resolving. rewrite filter_app, filter_cons, filter_nil.
  case_decide.
  - apply last_snoc.
  - by rewrite app_nil_r.
Qed.

Lemma first_with_id_lookup l k i x :
  first_with_id l k i → l !! i = Some x → NoteItem.id x = k.
Proof.
  unfold first_with_id. intros Hfirst Hi.
  destruct (list_find _ l) as [[j y]|] eqn:Hfind; simplify_eq/=.
  apply list_find_Some in Hfind as (Hj & Hy & _). congruence.
Qed.

(** What [annotate] leaves at each position. *)
Lemma annotate_lookup k p l i :
  annotate k p l !! i =
    (λ x, if decide (first_with_id l k i) then NoteItem.set_path x p else x)
      <$> l !! i.
Proof.
  unfold annotate.
  destruct (list_find _ l) as [[i0 row]|] eqn:Hfind.
  - pose proof Hfind as (Hi0 & _ & _)%list_find_Some.
    destruct (decide (i0 = i)) as [->|Hne].
    + rewrite list_lookup_insert_eq by eauto using lookup_lt_Some.
      rewrite Hi0. simpl.
      rewrite decide_True; [done|]. unfold first_with_id. by rewrite Hfind.
    + rewrite list_lookup_insert_ne by done.
      destruct (l !! i); simpl; [|done].
      rewrite decide_False; [done|].
      unfold first_with_id. rewrite Hfind. simpl. congruence.
  - destruct (l !! i); simpl; [|done].
    rewrite decide_False; [done|]. unfold first_with_id. by rewrite Hfind.
Qed.

(** The join, as an equation: folding the callback over the vault gives
    the joined view of the fetched array. *)
Lemma foldl_visit_joined files fetched :
  foldl visit fetched files = imap (joined files fetched) fetched.
Proof.
  induction files as [|f files IH] using rev_ind.
  - simpl. apply list_eq. intros i. rewrite list_lookup_imap.
    destruct (fetched !! i) as [x|]; simpl; [|done].
    unfold joined. by case_decide.
  - rewrite foldl_app. simpl. rewrite visit_resolve.
    assert (Hids : NoteItem.id <$> foldl visit fetched files = NoteItem.id <$> fetched)
      by apply foldl_visit_ids.
    apply list_eq. intros i. rewrite list_lookup_imap.
    destruct (resolve f) as [k|] eqn:Hres.
    + rewrite annotate_lookup, IH, list_lookup_imap.
      destruct (fetched !! i) as [x|] eqn:Hi; simpl; [|done].
      f_equal. unfold joined. rewrite last_resolving_snoc.
      assert (Hfirst : ∀ k', first_with_id (imap (joined files fetched) fetched) k' i
                             ↔ first_with_id fetched k' i).
      { intros k'. unfold first_with_id.
        by rewrite <-IH, (list_find_same_ids k' _ fetched Hids). }
      destruct (decide (first_with_id fetched (NoteItem.id x) i)) as [Hx|Hx].
      * destruct (decide (resolve f = Some (NoteItem.id x))) as [Hk|Hk].
        -- assert (k = NoteItem.id x) as -> by congruence.
           rewrite decide_True by (by apply Hfirst).
           by destruct (last_resolving files (NoteItem.id x)).
        -- rewrite decide_False; [done|].
           intros Hk'%Hfirst. apply Hk. rewrite Hres. f_equal.
           symmetry. by eapply first_with_id_lookup.
      * rewrite decide_False; [done|].
        intros Hk'%Hfirst. apply Hx.
        by rewrite (first_with_id_lookup _ _ _ _ Hk' Hi).
    + rewrite IH, list_lookup_imap.
      destruct (fetched !! i) as [x|]; simpl; [|done].
      f_equal. unfold joined. rewrite last_resolving_snoc.
      case_decide; [|done]. rewrite decide_False; [done|congruence].
Qed.

End NoteManagementFacts.

Section GetNotesFacts.

Variable parseExistingShareUrl : string → option SharedUrl.t.

Local Abbreviation getNotes := (getNotes parseExistingShareUrl).
Local Abbreviation visit := (visit parseExistingShareUrl).
Local Abbreviation last_resolving := (last_resolving parseExistingShareUrl).

(** When the fetch succeeds, [getNotes] returns the fetched array after
    the walk over the vault, having made one request. *)
Lemma getNotes_fetched w fetched :
  World.accountNotes w = Js.Return fetched →
  getNotes w =
    (Js.Return
       (foldl (visit (World.metadataCache w) (field_link (World.settings w)))
          fetched (World.markdownFiles w)),
     World.emit (ApiGet "/v1/account/notes") w).
Proof.
  intros Hfetch. unfold getNotes, api_get. run_M.
  rewrite Hfetch. reflexivity.
Qed.

Lemma getNotes_failed w e :
  World.accountNotes w = Js.Throw e →
  getNotes w =
    (Js.Return [],
     World.emit (ConsoleLog e) (World.emit (ApiGet "/v1/account/notes") w)).
Proof.
  intros Hfetch. unfold getNotes, api_get. run_M.
  rewrite Hfetch. reflexivity.
Qed.

(** C3. When the remote fetch raises an error, [getNotes] returns the
    empty sequence, logs the error on the console, and raises nothing:
    its completion is a normal return. *)
Theorem getNotes_fetch_failure w e :
  World.accountNotes w = Js.Throw e →
  fst (getNotes w) = Js.Return []
  ∧ events_since w (snd (getNotes w)) = [ApiGet "/v1/account/notes"; ConsoleLog e].
Proof.
  intros Hfetch. rewrite (getNotes_failed w e Hfetch). simpl. split; [done|].
  apply events_since_app. simpl. by rewrite <-app_assoc.
Qed.

(** [getNotes] always returns; it never throws. *)
Lemma getNotes_returns w : ∃ result, fst (getNotes w) = Js.Return result.
Proof.
  destruct (World.accountNotes w) as [fetched|e] eqn:Hfetch.
  - rewrite (getNotes_fetched w fetched Hfetch). eauto.
  - rewrite (getNotes_failed w e Hfetch). eauto.
Qed.

(** C5. Reconciliation mutates neither the documents' metadata nor the
    server's items: after [getNotes] the metadata cache, the vault, the
    settings, the saved data and the server's list are what they were, its
    only effects are the one GET request and, on failure, the console log,
    and the returned items have the ids and timestamps that were fetched,
    in the same order. *)
Theorem getNotes_mutates_nothing w :
  let '(completion, w') := getNotes w in
  World.metadataCache w' = World.metadataCache w
  ∧ World.markdownFiles w' = World.markdownFiles w
  ∧ World.settings w' = World.settings w
  ∧ World.data w' = World.data w
  ∧ World.accountNotes w' = World.accountNotes w
  ∧ events_since w w' =
      ApiGet "/v1/account/notes" ::
      match World.accountNotes w with
      | Js.Return _ => []
      | Js.Throw e => [ConsoleLog e]
      end
  ∧ match World.accountNotes w, completion with
    | Js.Return fetched, Js.Return result =>
        NoteItem.id <$> result = NoteItem.id <$> fetched
        ∧ NoteItem.updated <$> result = NoteItem.updated <$> fetched
    | Js.Throw _, Js.Return result => result = []
    | _, Js.Throw _ => False
    end.
Proof.
  destruct (World.accountNotes w) as [fetched|e] eqn:Hfetch.
  - rewrite (getNotes_fetched w fetched Hfetch). simpl.
    split_and!; try done.
    + by apply events_since_app.
    + apply foldl_visit_ids.
    + apply foldl_visit_updated.
  - rewrite (getNotes_failed w e Hfetch). simpl.
    split_and!; try done.
    apply events_since_app. simpl. by rewrite <-app_assoc.
Qed.

(** The walk depends on the metadata only through what each document
    resolves to. *)
Lemma foldl_visit_ext cache cache' key files l :
  (∀ f l', f ∈ files → visit cache key l' f = visit cache' key l' f) →
  foldl (visit cache key) l files = foldl (visit cache' key) l files.
Proof.
  revert l. induction files as [|f files IH]; intros l Hext; simpl; [done|].
  rewrite Hext by apply list_elem_of_here.
  apply IH. intros f' l' Hf'. apply Hext. by apply list_elem_of_further.
Qed.

(** C6. A document whose link field holds a string that
    [parseExistingShareUrl] does not recognise is treated as a document
    with no link field: visiting it changes no remote item, and [getNotes]
    returns, without error, what it returns when the field is removed from
    that document, with the same effects. *)
Theorem getNotes_skips_unparseable_link w path fm link :
  World.metadataCache w !! path = Some (CachedMetadata.mk (Some fm)) →
  fm !! field_link (World.settings w) = Some link →
  parseExistingShareUrl link = None →
  let unshared :=
    World.set_metadataCache
      (<[path := CachedMetadata.mk (Some (delete (field_link (World.settings w)) fm))]>
         (World.metadataCache w)) w in
  (∀ file sharedNotes, TFile.path file = path →
     visit (World.metadataCache w) (field_link (World.settings w)) sharedNotes file
     = sharedNotes)
  ∧ (∃ result, fst (getNotes w) = Js.Return result
               ∧ fst (getNotes unshared) = Js.Return result)
  ∧ World.events (snd (getNotes w)) = World.events (snd (getNotes unshared)).
Proof.
  intros Hcache Hlink Hparse unshared.
  assert (Hskip : ∀ file sharedNotes, TFile.path file = path →
     visit (World.metadataCache w) (field_link (World.settings w)) sharedNotes file
     = sharedNotes).
  { intros file l <-. unfold visit, frontmatter_get. rewrite Hcache. simpl.
    rewrite Hlink, Hparse. by destruct (Js.truthy link). }
  split; [exact Hskip|].
  destruct (World.accountNotes w) as [fetched|e] eqn:Hfetch.
  - rewrite (getNotes_fetched w fetched Hfetch).
    rewrite (getNotes_fetched unshared fetched Hfetch). simpl.
    split; [|done]. eexists. split; [done|]. f_equal. symmetry.
    apply foldl_visit_ext. intros f l _.
    destruct (decide (TFile.path f = path)) as [Hp|Hp].
    + rewrite (Hskip f l Hp). unfold visit, frontmatter_get.
      rewrite Hp, lookup_insert_eq. simpl. by rewrite lookup_delete_eq.
    + unfold visit. by rewrite lookup_insert_ne.
  - rewrite (getNotes_failed w e Hfetch).
    rewrite (getNotes_failed unshared e Hfetch). simpl. eauto.
Qed.

(** The returned array is the joined view of the fetched one. *)
Lemma getNotes_joined w fetched :
  World.accountNotes w = Js.Return fetched →
  fst (getNotes w) =
    Js.Return
      (imap (joined parseExistingShareUrl (World.metadataCache w)
               (field_link (World.settings w)) (World.markdownFiles w) fetched)
         fetched).
Proof.
  intros Hfetch. rewrite (getNotes_fetched w fetched Hfetch). simpl.
  by rewrite foldl_visit_joined.
Qed.

(** C2, as the code has it. The result holds the fetched items in the
    order the server gave them, with their ids and timestamps. The item at
    a position carries the path of the last document, in vault order, whose
    stored link is non-empty and parses to the item's id, provided the
    position is the first one with that id and such a document exists; any
    other item has the path it was fetched with, which is absent unless
    the server sent one. *)
Theorem getNotes_joined_view w fetched :
  World.accountNotes w = Js.Return fetched →
  ∃ result,
    fst (getNotes w) = Js.Return result
    ∧ length result = length fetched
    ∧ ∀ i x, fetched !! i = Some x →
        ∃ item,
          result !! i = Some item
          ∧ NoteItem.id item = NoteItem.id x
          ∧ NoteItem.updated item = NoteItem.updated x
          ∧ NoteItem.path item =
              match
                (if decide (first_with_id fetched (NoteItem.id x) i)
                 then last_resolving (World.metadataCache w)
                        (field_link (World.settings w))
                        (World.markdownFiles w) (NoteItem.id x)
                 else None)
              with
              | Some d => Some (TFile.path d)
              | None => NoteItem.path x
              end.
Proof.
  intros Hfetch. eexists. split; [by apply getNotes_joined|].
  split; [apply length_imap|].
  intros i x Hi. eexists. split.
  { rewrite list_lookup_imap, Hi. reflexivity. }
  unfold joined. case_decide; [|done].
  by destruct (last_resolving _ _ _ _).
Qed.


End GetNotesFacts.

(** With the server unreachable: an empty result, one request, one log. *)
Lemma getNotes_fetch_failure_witness :
  fst (getNotes Sample.parseExistingShareUrl Sample.offline) = Js.Return []
  ∧ events_since Sample.offline
      (snd (getNotes Sample.parseExistingShareUrl Sample.offline))
    = [ApiGet "/v1/account/notes"; ConsoleLog (Js.mkError "Network error")].
Proof.
  apply (getNotes_fetch_failure Sample.parseExistingShareUrl Sample.offline).
  reflexivity.
Defined.

(** ** Reconciliation on the sample vaults *)

(** The specification's example: remote a, b, c and one document sharing
    b. All three items come back and only b carries the path. *)
Example getNotes_one_document :
  fst (getNotes Sample.parseExistingShareUrl Sample.one_document)
  = Js.Return
      [Sample.item "a";
       NoteItem.mk "b" "2024-01-01" (Some "y.md");
       Sample.item "c"].
Proof. vm_compute. reflexivity. Qed.

Example getNotes_duplicates :
  fst (getNotes Sample.parseExistingShareUrl Sample.duplicates)
  = Js.Return
      [Sample.item "a";
       NoteItem.mk "b" "2024-01-01" (Some "y2.md");
       Sample.item "c";
       Sample.item "b"].
Proof. vm_compute. reflexivity. Qed.

(** On the specification's example the join is as the specification words
    it. *)
Example one_document_carries_path_iff :
  carries_path_iff_link_parses Sample.parseExistingShareUrl Sample.one_document.
Proof.
  intros fetched Hfetch. eexists. split; [apply getNotes_one_document|].
  injection Hfetch as <-. split; [done|].
  assert (Hx : ∀ k, ¬ link_parses_to Sample.parseExistingShareUrl
                        Sample.one_document (Sample.note "x.md") k).
  { intros k (link & parsed & Hlink & _). vm_compute in Hlink. discriminate. }
  assert (Hy : ∀ k, link_parses_to Sample.parseExistingShareUrl
                      Sample.one_document (Sample.note "y.md") k ↔ k = "b").
  { intros k. split.
    - intros (link & parsed & Hlink & Hparse & <-).
      vm_compute in Hlink. injection Hlink as <-.
      vm_compute in Hparse. by injection Hparse as <-.
    - intros ->. eexists _, _. split; [by vm_compute|]. split; by vm_compute. }
  split.
  - intros item file Hitem Hfile.
    apply elem_of_cons in Hfile as [->|Hfile].
    { split; [|by intros ?%Hx].
      repeat (apply elem_of_cons in Hitem as [->|Hitem]); try done.
      by apply elem_of_nil in Hitem. }
    apply elem_of_cons in Hfile as [->|Hfile];
      [|by apply elem_of_nil in Hfile].
    rewrite Hy.
    repeat (apply elem_of_cons in Hitem as [->|Hitem]);
      try (by apply elem_of_nil in Hitem); simpl; split; done.
  - intros item Hitem Hnone.
    repeat (apply elem_of_cons in Hitem as [->|Hitem]);
      try (by apply elem_of_nil in Hitem); try done.
    exfalso. apply (Hnone (Sample.note "y.md")).
    + apply list_elem_of_further, list_elem_of_here.
    + by apply Hy.
Qed.

(** With two documents sharing b, the first of them parses to b and yet
    the item carries the other one's path. *)
Lemma duplicates_not_carries_path_iff :
  ¬ carries_path_iff_link_parses Sample.parseExistingShareUrl Sample.duplicates.
Proof.
  intros Hspec.
  destruct (Hspec _ eq_refl) as (result & Hresult & _ & Hiff & _).
  rewrite getNotes_duplicates in Hresult. injection Hresult as <-.
  assert (Hpath : NoteItem.path (NoteItem.mk "b" "2024-01-01" (Some "y2.md"))
                  = Some (TFile.path (Sample.note "y1.md"))).
  { apply Hiff.
    - apply list_elem_of_further, list_elem_of_here.
    - apply list_elem_of_here.
    - eexists _, _. split; [by vm_compute|]. split; by vm_compute. }
  discriminate Hpath.
Qed.

(** The same holds whatever the parser is, as soon as it recognises one
    link: store that link in two documents. *)
Lemma two_documents_one_link parse link parsed :
  parse link = Some parsed →
  ¬ carries_path_iff_link_parses parse
      (Sample.world [Sample.note "1.md"; Sample.note "2.md"]
         (<["1.md" := Sample.linked link]> (<["2.md" := Sample.linked link]> ∅))
         (Js.Return [Sample.item (SharedUrl.filename parsed)])
         (Js.Return Sample.created)).
Proof.
  intros Hparse Hspec.
  destruct (Hspec _ eq_refl) as (result & Hresult & _ & Hiff & _).
  rewrite (getNotes_fetched parse _ [Sample.item (SharedUrl.filename parsed)])
    in Hresult by reflexivity.
  injection Hresult as <-.
  set (row := visit parse _ _ _ (Sample.note "2.md")) in Hiff.
  assert (∃ x, row = [x] ∧ NoteItem.id x = SharedUrl.filename parsed
               ∧ NoteItem.path x ≠ Some "1.md")
    as (x & Hrow & Hid & Hpath).
  { subst row. unfold visit, frontmatter_get. simpl.
    rewrite lookup_insert_eq. simpl. rewrite lookup_singleton_eq.
    rewrite lookup_insert_ne, lookup_insert_eq by done. simpl.
    rewrite lookup_singleton_eq, Hparse.
    destruct (Js.truthy link); [|by eexists].
    simpl. rewrite decide_True by done. simpl.
    rewrite decide_True by done. simpl. by eexists. }
  apply Hpath, (Hiff x (Sample.note "1.md")).
  - rewrite Hrow. apply list_elem_of_here.
  - apply list_elem_of_here.
  - exists link, parsed. split; [|done].
    unfold frontmatter_get. simpl. rewrite lookup_insert_eq. simpl.
    apply lookup_singleton_eq.
Qed.

(** The joined view of the vault with two documents sharing b. *)
Lemma getNotes_joined_view_witness :
  ∃ result,
    fst (getNotes Sample.parseExistingShareUrl Sample.duplicates) = Js.Return result
    ∧ length result = 4
    ∧ ∃ item, result !! 1 = Some item ∧ NoteItem.path item = Some "y2.md".
Proof.
  destruct (getNotes_joined_view Sample.parseExistingShareUrl Sample.duplicates
              _ eq_refl) as (result & Hresult & Hlen & Hitems).
  exists result. split; [exact Hresult|]. split; [exact Hlen|].
  destruct (Hitems 1 (Sample.item "b") eq_refl) as (item & Hi & _ & _ & Hpath).
  exists item. split; [exact Hi|]. rewrite Hpath. vm_compute. reflexivity.
Defined.


(** A document with a garbage link gives the result of the vault without
    that link. *)
Lemma getNotes_skips_unparseable_link_witness :
  ∃ result,
    fst (getNotes Sample.parseExistingShareUrl Sample.garbage_link)
    = Js.Return result
    ∧ fst (getNotes Sample.parseExistingShareUrl Sample.one_document)
      = Js.Return result.
Proof.
  destruct (getNotes_skips_unparseable_link Sample.parseExistingShareUrl
              Sample.garbage_link "x.md" {[ "share_link" := "not a link" ]}
              "not a link")
    as (_ & (result & Hgarbage & Hremoved) & _).
  - vm_compute. reflexivity.
  - vm_compute. reflexivity.
  - vm_compute. reflexivity.
  - exists result. split; [exact Hgarbage|].
    rewrite <-Hremoved. vm_compute. reflexivity.
Defined.

(** ** The plugin class *)

Section SharePluginFacts.

Variable DEFAULT_SETTINGS : ShareSettings.t.
Variable hash : string → string.
Variable share : Note.t → M unit.

Local Abbreviation onload := (onload DEFAULT_SETTINGS hash).
Local Abbreviation uploadNote := (uploadNote share).
Local Abbreviation copyShareLink := (copyShareLink share).

Local Abbreviation generic_error :=
  (StatusMessage "There was an error uploading the note, please try again."
     (Some StatusType_Error)).

Lemma status_hide_run w :
  status_hide w = (Js.Return tt, World.set_statusVisible false (World.emit StatusHide w)).
Proof. reflexivity. Qed.

Implicit Types (e : Js.Error) (thrown : Js.Thrown).

(** [uploadNote], by the way [share] completes. *)
Lemma uploadNote_run forceUpload forceClipboard w :
  uploadNote forceUpload forceClipboard w =
    match share (Note.mk forceUpload forceClipboard) w with
    | (Js.Return _, w1) => status_hide w1
    | (Js.Throw thrown, w1) =>
        match Js.read_message thrown with
        | Js.Return (Some message) =>
            if String.eqb message "Unknown error"
            then status_hide (World.emit generic_error w1)
            else status_hide w1
        | Js.Return None => status_hide w1
        | Js.Throw error => (Js.Throw error, w1)
        end
    end.
Proof.
  unfold uploadNote, try_catch, lift, mbind, M_bind.
  assert (Hnote :
    (if forceClipboard
     then Note.forceClipboard
            (if forceUpload then Note.forceUpload Note.new else Note.new)
     else if forceUpload then Note.forceUpload Note.new else Note.new)
    = Note.mk forceUpload forceClipboard) by by destruct forceUpload, forceClipboard.
  simpl. rewrite Hnote.
  destruct (share _ w) as [[[]|thrown] w1]; [done|].
  destruct (Js.read_message thrown) as [[message|]|error]; [|done..].
  by destruct (String.eqb _ _).
Qed.

(** C1, as the code has it. When the share operation fails, [uploadNote]
    catches the failure and returns normally, whatever the message: with
    the message "Unknown error" it emits the generic error notification
    and then hides the status; with any other message it only hides the
    status, and nothing is raised to the caller. *)
Theorem uploadNote_catches_failure forceUpload forceClipboard w e w1 :
  share (Note.mk forceUpload forceClipboard) w = (Js.Throw e, w1) →
  fst (uploadNote forceUpload forceClipboard w) = Js.Return tt
  ∧ events_since w1 (snd (uploadNote forceUpload forceClipboard w)) =
      if String.eqb (Js.message e) "Unknown error"
      then [generic_error; StatusHide]
      else [StatusHide].
Proof.
  intros Hshare. rewrite uploadNote_run, Hshare. simpl.
  destruct (String.eqb _ _); rewrite status_hide_run; simpl.
  - split; [done|]. apply events_since_app. simpl. by rewrite <-app_assoc.
  - split; [done|]. by apply events_since_app.
Qed.

(** Reading [e.message] fails on [undefined] and [null] only. *)
Lemma read_message_nullish thrown :
  nullish thrown ↔ ∃ error, Js.read_message thrown = Js.Throw error.
Proof.
  unfold nullish. destruct thrown; simpl; split; try (by eauto);
    try (by intros [?|?]); by intros [? ?].
Qed.

(** X19. Whenever the share operation returns, or throws anything but
    [undefined] and [null], [uploadNote] returns normally, its last effect
    is hiding the status, and the in-progress indicator is hidden when it
    returns. *)
Theorem uploadNote_hides_status_unless_nullish forceUpload forceClipboard w :
  (∀ thrown w1, share (Note.mk forceUpload forceClipboard) w = (Js.Throw thrown, w1) →
                ¬ nullish thrown) →
  ∃ w',
    uploadNote forceUpload forceClipboard w = (Js.Return tt, w')
    ∧ World.statusVisible w' = false
    ∧ last (World.events w') = Some StatusHide.
Proof.
  intros Hthrown. rewrite uploadNote_run.
  destruct (share _ w) as [[[]|thrown] w1].
  - rewrite status_hide_run. eexists. split; [done|]. simpl.
    split; [done|]. apply last_snoc.
  - specialize (Hthrown thrown w1 eq_refl).
    destruct (Js.read_message thrown) as [[message|]|error] eqn:Hread.
    + destruct (String.eqb _ _); rewrite status_hide_run; eexists;
        (split; [done|]); simpl; (split; [done|]); apply last_snoc.
    + rewrite status_hide_run. eexists. split; [done|]. simpl.
      split; [done|]. apply last_snoc.
    + destruct Hthrown. apply read_message_nullish. eauto.
Qed.

(** X18. When the share operation throws [undefined] or [null], the
    [catch] block throws a [TypeError] on [e.message]: [uploadNote] throws
    it on, shows no notice and does not hide the status; the state is left
    as the share operation left it. *)
Theorem uploadNote_throws_on_nullish forceUpload forceClipboard w thrown w1 :
  share (Note.mk forceUpload forceClipboard) w = (Js.Throw thrown, w1) →
  nullish thrown →
  uploadNote forceUpload forceClipboard w =
    (Js.Throw
       (Js.TypeError_reading
          (match thrown with Js.Null => "null" | _ => "undefined" end) "message"),
     w1).
Proof.
  intros Hshare [-> | ->]; by rewrite uploadNote_run, Hshare.
Qed.

(** C9, as the code has it. When the file's frontmatter holds a non-empty
    value under "<yamlField>_link", [copyShareLink] writes exactly that
    value to the clipboard, shows the notice and does nothing else, so no
    upload happens; when the field is missing or holds the empty string,
    which the test [if (shareLink)] rejects, it is [uploadNote(false, true)]:
    the share operation with the upload not forced and the clipboard
    forced. *)
Theorem copyShareLink_copies_or_shares file w :
  match frontmatter_get (World.metadataCache w !! TFile.path file)
          (ShareSettings.yamlField (World.settings w) +:+ "_link") with
  | Some value =>
      if Js.truthy value then
        copyShareLink file w =
          (Js.Return tt,
           World.emit (StatusMessage "Shared link copied to clipboard" None)
             (World.emit (ClipboardWrite value) w))
      else copyShareLink file w = uploadNote false true w
  | None => copyShareLink file w = uploadNote false true w
  end.
Proof.
  unfold copyShareLink, mbind, M_bind, getFileCache, get. simpl.
  destruct (frontmatter_get _ _) as [value|]; [|done].
  by destruct (Js.truthy value).
Qed.

Lemma onload_run w :
  onload w =
    let loaded := assign DEFAULT_SETTINGS (World.data w) in
    if Js.truthy (ShareSettings.uid loaded) then
      (Js.Return tt, World.set_settings loaded w)
    else
      let minted := ShareSettings.set_uid loaded (hash (uid_seed w)) in
      (Js.Return tt,
       World.set_data (Some (SavedData.of_settings minted))
         (World.emit (SaveData (SavedData.of_settings minted))
            (World.set_settings minted w))).
Proof.
  unfold onload, loadSettings, saveSettings, saveData, loadData, mbind, M_bind,
    get, modify, emit, modify. simpl.
  by destruct (Js.truthy _).
Qed.

(** C8. Loading mints the user identifier once. The loaded settings are
    the saved fields where there are any and the defaults elsewhere. When
    their uid is absent (the empty string, which is what [!settings.uid]
    tests on this string field), the uid becomes the hash of the seed, the
    time in decimal followed by the random number, the other settings stay
    as loaded, and the settings are saved, once; when a uid is present,
    loading leaves the settings as loaded and saves nothing. *)
Theorem onload_mints_uid_once w :
  let loaded :=
    ShareSettings.mk
      (default (ShareSettings.uid DEFAULT_SETTINGS) (World.data w ≫= SavedData.uid))
      (default (ShareSettings.apiKey DEFAULT_SETTINGS) (World.data w ≫= SavedData.apiKey))
      (default (ShareSettings.yamlField DEFAULT_SETTINGS)
         (World.data w ≫= SavedData.yamlField))
      (default (ShareSettings.clipboard DEFAULT_SETTINGS)
         (World.data w ≫= SavedData.clipboard)) in
  ∃ w',
    onload w = (Js.Return tt, w')
    ∧ if decide (ShareSettings.uid loaded = "") then
        let minted :=
          ShareSettings.mk (hash (pretty (World.now w) +:+ World.random w))
            (ShareSettings.apiKey loaded) (ShareSettings.yamlField loaded)
            (ShareSettings.clipboard loaded) in
        let saved :=
          SavedData.mk (Some (ShareSettings.uid minted))
            (Some (ShareSettings.apiKey minted))
            (Some (ShareSettings.yamlField minted))
            (Some (ShareSettings.clipboard minted)) in
        World.settings w' = minted
        ∧ World.data w' = Some saved
        ∧ events_since w w' = [SaveData saved]
      else
        World.settings w' = loaded
        ∧ World.data w' = World.data w
        ∧ events_since w w' = [].
Proof.
  intros loaded. rewrite onload_run.
  assert (Hloaded : assign DEFAULT_SETTINGS (World.data w) = loaded)
    by (subst loaded; unfold assign; destruct (World.data w); simpl;
        [reflexivity|by destruct DEFAULT_SETTINGS]).
  rewrite Hloaded. cbv zeta.
  destruct (decide (ShareSettings.uid loaded = "")) as [Huid|Huid].
  - rewrite (proj2 (truthy_false _) Huid).
    eexists. split; [reflexivity|]. simpl.
    split_and!; [done..|]. by apply events_since_app.
  - rewrite (proj2 (truthy_true _) Huid).
    eexists. split; [reflexivity|]. simpl.
    split_and!; [done..|]. apply events_since_app; simpl; by rewrite app_nil_r.
Qed.

(** Saved settings load back as they were saved. *)
Lemma assign_of_settings s :
  assign DEFAULT_SETTINGS (Some (SavedData.of_settings s)) = s.
Proof. by destruct s. Qed.

(** X10. Once a non-empty uid was minted and saved, the next load keeps
    it, leaves the settings as they are and saves nothing. *)
Lemma onload_keeps_minted_uid w w' :
  onload w = (Js.Return tt, w') →
  Js.truthy (ShareSettings.uid (World.settings w')) = true →
  ∃ w'',
    onload w' = (Js.Return tt, w'')
    ∧ World.settings w'' = World.settings w'
    ∧ events_since w' w'' = [].
Proof.
  rewrite onload_run. cbv zeta.
  destruct (Js.truthy (ShareSettings.uid (assign _ (World.data w)))) eqn:Huid;
    intros [= Hw'] Hminted; rewrite onload_run; cbv zeta.
  - assert (Hdata : World.data w' = World.data w) by by rewrite <-Hw'.
    assert (Hset : World.settings w' = assign DEFAULT_SETTINGS (World.data w))
      by by rewrite <-Hw'.
    rewrite Hdata, Huid. eexists. split; [reflexivity|]. simpl.
    split; [by rewrite Hset|]. apply events_since_app. simpl. by rewrite app_nil_r.
  - assert (Hdata : World.data w' = Some (SavedData.of_settings (World.settings w')))
      by by rewrite <-Hw'.
    rewrite Hdata, assign_of_settings, Hminted. eexists. split; [reflexivity|].
    simpl. split; [by destruct (World.settings w')|].
    apply events_since_app. simpl. by rewrite app_nil_r.
Qed.

End SharePluginFacts.

(** ** The plugin class on the sample vaults *)

(** A share that fails with "Network error": [uploadNote] returns
    normally, so the failure does not reach the caller. *)
Lemma network_error_not_propagated :
  ¬ notifies_sentinel_propagates_others (Sample.failing "Network error")
      Sample.never_shared.
Proof.
  intros Hspec.
  destruct (Hspec false false (Js.mkError "Network error") Sample.never_shared)
    as [_ Hraise]; [reflexivity|].
  assert (Hthrown :
    fst (uploadNote (Sample.failing "Network error") false false
           Sample.never_shared) = Js.Throw (Js.mkError "Network error")).
  { apply Hraise. simpl. discriminate. }
  vm_compute in Hthrown. discriminate Hthrown.
Qed.

Example uploadNote_network_error :
  uploadNote (Sample.failing "Network error") false false Sample.never_shared
  = (Js.Return tt, hidden Sample.never_shared).
Proof. reflexivity. Qed.

(** A share that fails with the sentinel message: the generic error is
    shown, the status is hidden, and [uploadNote] returns. *)
Lemma uploadNote_catches_failure_witness :
  fst (uploadNote (Sample.failing "Unknown error") true false Sample.never_shared)
  = Js.Return tt
  ∧ events_since Sample.never_shared
      (snd (uploadNote (Sample.failing "Unknown error") true false
              Sample.never_shared))
    = [StatusMessage "There was an error uploading the note, please try again."
         (Some StatusType_Error);
       StatusHide].
Proof.
  apply (uploadNote_catches_failure (Sample.failing "Unknown error") true false
           Sample.never_shared (Js.mkError "Unknown error") Sample.never_shared).
  reflexivity.
Defined.

(** C7 fails on the code. When the share operation has shown the
    indicator and rejects with [undefined], the [catch] block of
    [uploadNote] throws a [TypeError] on [e.message]; the call after the
    [try]/[catch] that hides the status is never reached: [uploadNote]
    throws, the indicator is still visible and nothing was hidden. *)
Theorem uploadNote_skips_hide :
  let outcome := uploadNote Sample.rejecting_undefined false false Sample.never_shared in
  fst outcome = Js.Throw (Js.TypeError_reading "undefined" "message")
  ∧ World.statusVisible (snd outcome) = true
  ∧ StatusHide ∉ World.events (snd outcome).
Proof.
  vm_compute. split; [reflexivity|]. split; [reflexivity|]. apply not_elem_of_nil.
Qed.

(** A link field that was emptied is a value of the field, and it is not
    copied: the note is uploaded instead. *)
Lemma empty_link_not_copied :
  ¬ copies_any_stored_value Sample.uploading (Sample.note "d.md")
      Sample.empty_link.
Proof.
  intros Hspec. apply (f_equal (λ r, World.events (snd r))) in Hspec.
  vm_compute in Hspec. discriminate Hspec.
Qed.

Example copyShareLink_shared :
  World.events
    (snd (copyShareLink Sample.uploading (Sample.note "d.md") Sample.shared))
  = [ClipboardWrite "https://host/n1";
     StatusMessage "Shared link copied to clipboard" None].
Proof. vm_compute. reflexivity. Qed.

Example copyShareLink_empty_link :
  World.events
    (snd (copyShareLink Sample.uploading (Sample.note "d.md") Sample.empty_link))
  = [ApiUpload "d.md" None; StatusHide].
Proof. vm_compute. reflexivity. Qed.

Example onload_first_start :
  World.data
    (snd (onload Sample.settings Sample.hash Sample.first_start))
  = Some (SavedData.mk (Some "sha256:17000000000000.25") (Some "")
            (Some "share") (Some false)).
Proof. vm_compute. reflexivity. Qed.

Example onload_later_start :
  snd (onload Sample.settings Sample.hash Sample.later_start)
  = World.set_settings (ShareSettings.mk "0123abcd" "key" "share" false)
      Sample.later_start.
Proof. vm_compute. reflexivity. Qed.

(** ** Sharing twice *)

Lemma append_inj_r p a b : p +:+ a = p +:+ b → a = b.
Proof. induction p as [|c p IH]; simpl; [done|]. intros [= H]. by apply IH. Qed.

Lemma field_link_id settings : field_link settings ≠ NoteShare.field_id settings.
Proof. intros H%append_inj_r. discriminate H. Qed.

Lemma field_link_updated settings :
  field_link settings ≠ NoteShare.field_updated settings.
Proof. intros H%append_inj_r. discriminate H. Qed.

Lemma field_id_updated settings :
  NoteShare.field_id settings ≠ NoteShare.field_updated settings.
Proof. intros H%append_inj_r. discriminate H. Qed.

(** The store reads back the record it wrote. *)
Lemma read_write settings r meta :
  NoteShare.read settings (Some (NoteShare.write settings r meta)) = Some r.
Proof.
  pose proof (field_link_id settings). pose proof (field_link_updated settings).
  pose proof (field_id_updated settings).
  unfold NoteShare.read, NoteShare.write, frontmatter_get. simpl.
  rewrite lookup_insert_eq.
  rewrite lookup_insert_ne, lookup_insert_eq by done.
  rewrite !lookup_insert_ne, lookup_insert_eq by done.
  by destruct r.
Qed.

Section NoteShareFacts.

Variable content_unchanged : World.t → TFile.t → ShareRecord.t → bool.

Local Abbreviation share := (NoteShare.share content_unchanged).
Local Abbreviation uploadNote := (uploadNote share).

Implicit Types (w : World.t) (note : Note.t) (r : ShareRecord.t).

(** The record stored with the note in the editor. *)
Local Abbreviation record w :=
  (NoteShare.read (World.settings w)
     (World.metadataCache w !! TFile.path (World.activeFile w))).

Lemma clipboard_step_run note link w :
  NoteShare.clipboard_step note link w = (Js.Return tt, copied note link w).
Proof.
  unfold NoteShare.clipboard_step, copied, mbind, M_bind, get. simpl.
  by destruct (_ || _).
Qed.

Lemma upload_run note existing w :
  NoteShare.upload note (World.activeFile w) existing w =
    match World.uploadAnswer w (World.events w) with
    | Js.Return resp =>
        (Js.Return tt, copied note (UploadResponse.link resp) (uploaded existing resp w))
    | Js.Throw e =>
        (Js.Throw e,
         World.emit (ApiUpload (TFile.path (World.activeFile w)) existing) w)
    end.
Proof.
  unfold NoteShare.upload, NoteShare.api_upload, mbind, M_bind, get, modify. simpl.
  destruct (World.uploadAnswer w _) as [resp|e]; [|done].
  by rewrite clipboard_step_run.
Qed.

(** [share], by what the store holds. *)
Lemma share_run note w :
  share note w =
    match record w with
    | Some r =>
        if negb (Note.isForceUpload note)
           && content_unchanged w (World.activeFile w) r
        then (Js.Return tt, copied note (ShareRecord.link r) w)
        else NoteShare.upload note (World.activeFile w) (Some (ShareRecord.id r)) w
    | None => NoteShare.upload note (World.activeFile w) None w
    end.
Proof.
  unfold share, mbind, M_bind, get, getFileCache, get. simpl.
  destruct (NoteShare.read _ _) as [r|]; [|done].
  destruct (_ && _); [|done]. apply clipboard_step_run.
Qed.

(** The clipboard step and hiding the status only add local events. *)
Lemma copied_events note link w :
  World.events (copied note link w) =
    World.events w ++
    if Note.isForceClipboard note || ShareSettings.clipboard (World.settings w)
    then [ClipboardWrite link;
          StatusMessage "Shared link copied to clipboard" (Some StatusType_Success)]
    else [].
Proof.
  unfold copied. destruct (_ || _); simpl.
  - by rewrite <-app_assoc.
  - by rewrite app_nil_r.
Qed.

Lemma copied_record note link w : record (copied note link w) = record w.
Proof. unfold copied. by destruct (_ || _). Qed.

Lemma hidden_record w : record (hidden w) = record w.
Proof. reflexivity. Qed.

Lemma stored_link_record w : stored_link w = ShareRecord.link <$> record w.
Proof. reflexivity. Qed.

Lemma uploaded_record existing resp w :
  record (uploaded existing resp w) =
    Some (ShareRecord.mk (UploadResponse.id resp) (UploadResponse.link resp)
            (pretty (World.now w))).
Proof.
  unfold uploaded. simpl. rewrite lookup_insert_eq. apply read_write.
Qed.

(** How a share that does not force the upload can succeed: it reuses
    the stored record, or it uploads once and stores the answer. *)
Lemma share_succeeded forceClipboard w w1 :
  share (Note.mk false forceClipboard) w = (Js.Return tt, w1) →
  (∃ r, record w = Some r
        ∧ w1 = copied (Note.mk false forceClipboard) (ShareRecord.link r) w)
  ∨ (∃ existing resp,
        w1 = copied (Note.mk false forceClipboard) (UploadResponse.link resp)
               (uploaded existing resp w)).
Proof.
  rewrite share_run. simpl.
  destruct (record w) as [r|].
  - destruct (content_unchanged w _ r).
    + intros [= <-]. left. eauto.
    + rewrite upload_run. destruct (World.uploadAnswer w _); intros [= <-].
      right. eauto.
  - rewrite upload_run. destruct (World.uploadAnswer w _); intros [= <-].
    right. eauto.
Qed.

(** A share that reuses the stored record: no request, and the stored
    link is the one that is copied. *)
Lemma uploadNote_reuses forceClipboard w r :
  record w = Some r →
  content_unchanged w (World.activeFile w) r = true →
  uploadNote false forceClipboard w =
    (Js.Return tt, hidden (copied (Note.mk false forceClipboard) (ShareRecord.link r) w)).
Proof.
  intros Hr Hsame. rewrite uploadNote_run, share_run, Hr. simpl.
  by rewrite Hsame.
Qed.

(** C4, as the model of the share operation has it. Take two calls of
    [uploadNote] in a row, neither forcing the upload, such that the
    share of the first call does not fail and the content is judged
    unchanged when the second call starts. Then the two calls issue at
    most one upload in total; the second call makes no network call, it
    only copies the link when asked to and hides the status; and the link
    stored after the second call is the link stored after the first,
    which is the link the second call yields. *)
Theorem second_share_reuses_link forceClipboard1 forceClipboard2 w w' :
  share (Note.mk false forceClipboard1) w = (Js.Return tt, w') →
  let w1 := snd (uploadNote false forceClipboard1 w) in
  let w2 := snd (uploadNote false forceClipboard2 w1) in
  (∀ r, record w1 = Some r → content_unchanged w1 (World.activeFile w1) r = true) →
  length (filter (λ ev, is_upload ev) (events_since w w2)) ≤ 1
  ∧ filter (λ ev, is_network ev) (events_since w1 w2) = []
  ∧ ∃ link,
      stored_link w1 = Some link
      ∧ stored_link w2 = Some link
      ∧ events_since w1 w2 =
          (if forceClipboard2 || ShareSettings.clipboard (World.settings w1)
           then [ClipboardWrite link;
                 StatusMessage "Shared link copied to clipboard"
                   (Some StatusType_Success)]
           else [])
          ++ [StatusHide].
Proof.
  intros Hshare w1 w2 Hsame.
  assert (Hw1 : w1 = hidden w').
  { unfold w1. by rewrite uploadNote_run, Hshare. }
  assert (∃ r, record w' = Some r
               ∧ ∃ before, World.events w' = World.events w ++ before
                           ∧ length (filter (λ ev, is_upload ev) before) ≤ 1)
    as (r & Hr & before & Hbefore & Hone).
  { apply share_succeeded in Hshare
      as [(r & Hr & ->)|(existing & resp & ->)].
    - exists r. split; [by rewrite copied_record|].
      eexists. split; [apply copied_events|]. simpl.
      destruct (_ || _); simpl; lia.
    - eexists. split; [by rewrite copied_record, uploaded_record|].
      eexists. split.
      { rewrite copied_events. unfold uploaded. simpl.
        rewrite <-app_assoc. reflexivity. }
      simpl. destruct (_ || _); simpl; lia. }
  assert (Hr1 : record w1 = Some r) by (by rewrite Hw1).
  assert (Hw2 : w2 = hidden (copied (Note.mk false forceClipboard2)
                               (ShareRecord.link r) w1)).
  { unfold w2. rewrite (uploadNote_reuses forceClipboard2 w1 r); auto. }
  assert (Hafter : events_since w1 w2 =
            (if forceClipboard2 || ShareSettings.clipboard (World.settings w1)
             then [ClipboardWrite (ShareRecord.link r);
                   StatusMessage "Shared link copied to clipboard"
                     (Some StatusType_Success)]
             else [])
            ++ [StatusHide]).
  { apply events_since_app. rewrite Hw2. unfold hidden. simpl.
    rewrite copied_events. simpl. by rewrite <-app_assoc. }
  split_and!.
  - assert (Hall : events_since w w2 = (before ++ [StatusHide]) ++ events_since w1 w2).
    { rewrite Hafter. apply events_since_app. rewrite Hw2. unfold hidden. simpl.
      rewrite copied_events. simpl. rewrite Hw1. unfold hidden. simpl.
      rewrite Hbefore. by rewrite <-!app_assoc. }
    rewrite Hall, Hafter, !filter_app, !length_app.
    destruct (_ || _); simpl; lia.
  - rewrite Hafter. by destruct (_ || _).
  - exists (ShareRecord.link r). split_and!.
    + by rewrite stored_link_record, Hr1.
    + by rewrite stored_link_record, Hw2, hidden_record, copied_record, Hr1.
    + exact Hafter.
Qed.

End NoteShareFacts.

(** ** Sharing twice on the sample vaults *)

(** The specification's scenario: the first share creates the record,
    the second one makes no network call and finds the same link. *)
Example share_twice_never_shared :
  let share := NoteShare.share Sample.always_unchanged in
  let w1 := snd (uploadNote share false false Sample.never_shared) in
  let w2 := snd (uploadNote share false true w1) in
  World.events w1 = [ApiUpload "d.md" None; StatusHide]
  ∧ stored_link w1 = Some "https://host/n1"
  ∧ events_since w1 w2 =
      [ClipboardWrite "https://host/n1";
       StatusMessage "Shared link copied to clipboard" (Some StatusType_Success);
       StatusHide]
  ∧ stored_link w2 = Some "https://host/n1".
Proof. vm_compute. done. Qed.

(** With the server unreachable the first upload fails, nothing is
    recorded, and the second call uploads again: two uploads. *)
Lemma offline_second_share_uploads_again :
  ¬ second_share_is_free Sample.always_unchanged Sample.offline.
Proof.
  intros Hspec.
  destruct (Hspec false false) as [Hone _]; [done|].
  vm_compute in Hone. lia.
Qed.

(** The scenario again, through the theorem. *)
Lemma second_share_reuses_link_witness :
  let share := NoteShare.share Sample.always_unchanged in
  let w1 := snd (uploadNote share false false Sample.never_shared) in
  let w2 := snd (uploadNote share false true w1) in
  length (filter (λ ev, is_upload ev) (events_since Sample.never_shared w2)) ≤ 1
  ∧ filter (λ ev, is_network ev) (events_since w1 w2) = []
  ∧ ∃ link,
      stored_link w1 = Some link
      ∧ stored_link w2 = Some link
      ∧ events_since w1 w2 =
          (if true || ShareSettings.clipboard (World.settings w1)
           then [ClipboardWrite link;
                 StatusMessage "Shared link copied to clipboard"
                   (Some StatusType_Success)]
           else [])
          ++ [StatusHide].
Proof.
  intros share w1 w2.
  apply (second_share_reuses_link Sample.always_unchanged false true
           Sample.never_shared
           (snd (share (Note.mk false false) Sample.never_shared))).
  - vm_compute. reflexivity.
  - intros r _. reflexivity.
Defined.

(* ================================================================= *)
(** * Further properties of the reconciliation *)

Section WalkFacts.

Variable parseExistingShareUrl : string → option SharedUrl.t.
Variable cache : gmap string CachedMetadata.t.
Variable key : string.

Local Abbreviation visit := (visit parseExistingShareUrl cache key).
Local Abbreviation resolve := (resolve parseExistingShareUrl cache key).
Local Abbreviation last_resolving := (last_resolving parseExistingShareUrl cache key).
Local Abbreviation joined := (joined parseExistingShareUrl cache key).

Implicit Types (l fetched : list NoteItem.t) (files : list TFile.t).
Implicit Types (x row : NoteItem.t) (f d file : TFile.t) (k p : string).

(** What a document resolves to depends on its path alone. *)
Lemma resolve_path f f' : TFile.path f = TFile.path f' → resolve f = resolve f'.
Proof. unfold resolve. by intros ->. Qed.

(** The last resolving document is a document of the vault, and it
    resolves. *)
Lemma last_resolving_Some files k d :
  last_resolving files k = Some d → d ∈ files ∧ resolve d = Some k.
Proof.
  unfold last_resolving. intros Hlast%last_Some_elem_of.
  apply list_elem_of_filter in Hlast as [Hres Hin]. done.
Qed.

Lemma last_resolving_None files k :
  (∀ f, f ∈ files → resolve f ≠ Some k) → last_resolving files k = None.
Proof.
  intros Hnone. destruct (last_resolving files k) as [d|] eqn:Hlast; [|done].
  apply last_resolving_Some in Hlast as [Hin Hres]. by destruct (Hnone d Hin).
Qed.

(** With at most one document resolving to [k], that document is the
    last one. *)
Lemma last_resolving_only files k f :
  length (filter (λ f, resolve f = Some k) files) ≤ 1 →
  f ∈ files → resolve f = Some k → last_resolving files k = Some f.
Proof.
  unfold last_resolving. intros Hone Hin Hres.
  assert (Hf : f ∈ filter (λ f, resolve f = Some k) files)
    by (apply list_elem_of_filter; done).
  destruct (filter _ files) as [|f1 [|f2 rest]]; simpl in *.
  - by apply elem_of_nil in Hf.
  - apply list_elem_of_singleton in Hf as ->. done.
  - lia.
Qed.

(** The order of the vault does not matter for an id that at most one
    document resolves to. *)
Lemma last_resolving_Permutation files files' k :
  files' ≡ₚ files →
  length (filter (λ f, resolve f = Some k) files) ≤ 1 →
  last_resolving files' k = last_resolving files k.
Proof.
  unfold last_resolving. intros Hperm Hone.
  assert (Hfilter : filter (λ f, resolve f = Some k) files'
                    ≡ₚ filter (λ f, resolve f = Some k) files)
    by (by rewrite Hperm).
  destruct (filter _ files) as [|f1 [|f2 rest]]; simpl in *.
  - apply Permutation_nil_r in Hfilter as ->. done.
  - apply Permutation_singleton_r in Hfilter as ->. done.
  - lia.
Qed.

Lemma joined_id files fetched i x :
  NoteItem.id (joined files fetched i x) = NoteItem.id x.
Proof.
  unfold joined. case_decide; [|done]. by destruct (last_resolving _ _).
Qed.

(** With distinct ids every position is the first one of its id. *)
Lemma first_with_id_NoDup l i x :
  NoDup (NoteItem.id <$> l) → l !! i = Some x → first_with_id l (NoteItem.id x) i.
Proof.
  intros Hnodup Hi. unfold first_with_id.
  assert (Hfind : list_find (λ y, NoteItem.id y = NoteItem.id x) l = Some (i, x)).
  { apply list_find_Some. split_and!; [done..|].
    intros j y Hj Hlt Hid.
    assert (j = i); [|lia].
    apply (NoDup_lookup (NoteItem.id <$> l) j i (NoteItem.id x)); [done|..].
    - by rewrite list_lookup_fmap, Hj, <-Hid.
    - by rewrite list_lookup_fmap, Hi. }
  by rewrite Hfind.
Qed.

(** An id that no row has is not found, and nothing is annotated. *)
Lemma annotate_absent k p l : k ∉ (NoteItem.id <$> l) → annotate k p l = l.
Proof.
  intros Hk. unfold annotate.
  destruct (list_find _ l) as [[i row]|] eqn:Hfind; [|done].
  apply list_find_Some in Hfind as (Hi & Hid & _).
  destruct Hk. apply list_elem_of_fmap. exists row.
  split; [done|]. by eapply list_elem_of_lookup_2.
Qed.

(** Documents that do not resolve, or resolve to an id that no row has,
    leave the array as it is. *)
Lemma foldl_visit_unmatched files l :
  (∀ f k, f ∈ files → resolve f = Some k → k ∉ (NoteItem.id <$> l)) →
  foldl visit l files = l.
Proof.
  induction files as [|f files IH]; intros Hun; simpl; [done|].
  assert (Hf : visit l f = l).
  { rewrite visit_resolve. destruct (resolve f) as [k|] eqn:Hres; [|done].
    apply annotate_absent. apply (Hun f k); [apply list_elem_of_here|done]. }
  rewrite Hf. apply IH. intros f' k Hin. apply Hun. by apply list_elem_of_further.
Qed.

(** Walking the vault over an array that was already walked changes
    nothing. *)
Lemma foldl_visit_idempotent files fetched :
  foldl visit (foldl visit fetched files) files = foldl visit fetched files.
Proof.
  rewrite (foldl_visit_joined _ _ _ files (foldl visit fetched files)).
  assert (Hids : NoteItem.id <$> foldl visit fetched files = NoteItem.id <$> fetched)
    by apply foldl_visit_ids.
  rewrite (foldl_visit_joined _ _ _ files fetched) in *.
  apply list_eq. intros i. rewrite !list_lookup_imap.
  destruct (fetched !! i) as [x|] eqn:Hi; simpl; [|done]. f_equal.
  set (R := imap (joined files fetched) fetched) in *.
  assert (Hfirst : first_with_id R (NoteItem.id x) i ↔ first_with_id fetched (NoteItem.id x) i).
  { unfold first_with_id.
    by rewrite (list_find_same_ids (NoteItem.id x) R fetched Hids). }
  unfold joined at 1. rewrite joined_id.
  unfold joined. destruct (decide (first_with_id fetched (NoteItem.id x) i)) as [Hx|Hx].
  - rewrite decide_True by (by apply Hfirst).
    by destruct (last_resolving files (NoteItem.id x)).
  - rewrite decide_False; [done|]. by rewrite Hfirst.
Qed.

End WalkFacts.

Section GetNotesMore.

Variable parseExistingShareUrl : string → option SharedUrl.t.

Local Abbreviation getNotes := (getNotes parseExistingShareUrl).

(** What a document of the vault resolves to, in the state [w]. *)
Local Abbreviation resolves w :=
  (resolve parseExistingShareUrl (World.metadataCache w)
     (field_link (World.settings w))).

Implicit Types (w : World.t) (fetched : list NoteItem.t).

(** X1. When every document of the vault either resolves to nothing (no
    metadata, no frontmatter, no link field, an empty link, a link that
    does not parse) or resolves to an id that no fetched item has,
    [getNotes] returns the fetched list unchanged; in particular with an
    empty vault. *)
Theorem getNotes_unmatched_documents w fetched :
  World.accountNotes w = Js.Return fetched →
  (∀ f k, f ∈ World.markdownFiles w → resolves w f = Some k →
          k ∉ (NoteItem.id <$> fetched)) →
  fst (getNotes w) = Js.Return fetched.
Proof.
  intros Hfetch Hun. rewrite (getNotes_fetched _ w fetched Hfetch). simpl.
  f_equal. by apply foldl_visit_unmatched.
Qed.


(** X3. Reconciling again changes nothing: when the server lists what
    [getNotes] returned, [getNotes] returns that list once more. *)
Theorem getNotes_idempotent w fetched result :
  World.accountNotes w = Js.Return fetched →
  fst (getNotes w) = Js.Return result →
  fst (getNotes (with_accountNotes (Js.Return result) w)) = Js.Return result.
Proof.
  intros Hfetch Hresult.
  rewrite (getNotes_fetched _ w fetched Hfetch) in Hresult.
  injection Hresult as <-.
  erewrite getNotes_fetched by reflexivity. simpl.
  f_equal. apply foldl_visit_idempotent.
Qed.

(** X4. When no two documents resolve to the same id, the order in which
    the vault lists its files does not matter for the result. *)
Theorem getNotes_order_irrelevant w fetched files' :
  World.accountNotes w = Js.Return fetched →
  files' ≡ₚ World.markdownFiles w →
  (∀ k, length (filter (λ f, resolves w f = Some k) (World.markdownFiles w)) ≤ 1) →
  fst (getNotes (with_markdownFiles files' w)) = fst (getNotes w).
Proof.
  intros Hfetch Hperm Hone.
  rewrite (getNotes_joined _ w fetched Hfetch).
  rewrite (getNotes_joined _ (with_markdownFiles files' w) fetched Hfetch). simpl.
  f_equal. apply imap_ext. intros i x _. unfold joined.
  by rewrite (last_resolving_Permutation _ _ _ _ files' (NoteItem.id x) Hperm (Hone _)).
Qed.

(** X5. When the fetched ids are distinct, the fetched items carry no
    path and no two documents resolve to the same id, the join is exact:
    a returned item carries a document's path if and only if that
    document's stored link resolves to the item's id. *)
Theorem getNotes_exact_join w fetched :
  World.accountNotes w = Js.Return fetched →
  NoDup (NoteItem.id <$> fetched) →
  Forall (λ x, NoteItem.path x = None) fetched →
  (∀ k, length (filter (λ f, resolves w f = Some k) (World.markdownFiles w)) ≤ 1) →
  ∃ result,
    fst (getNotes w) = Js.Return result
    ∧ ∀ item file, item ∈ result → file ∈ World.markdownFiles w →
        NoteItem.path item = Some (TFile.path file)
        ↔ resolves w file = Some (NoteItem.id item).
Proof.
  intros Hfetch Hnodup Hnopath Hone.
  eexists. split; [by apply getNotes_joined|].
  intros item file [i Hitem]%list_elem_of_lookup_1 Hfile.
  rewrite list_lookup_imap in Hitem.
  destruct (fetched !! i) as [x|] eqn:Hi; simpl in Hitem; [|done].
  injection Hitem as <-. rewrite joined_id. unfold joined.
  rewrite decide_True by (by apply first_with_id_NoDup).
  split.
  - destruct (last_resolving _ _ _ _ _) as [d|] eqn:Hlast.
    + apply last_resolving_Some in Hlast as [_ Hres]. simpl. intros [= Hpath].
      by rewrite <-(resolve_path _ _ _ d file Hpath).
    + intros Hpath. rewrite Forall_lookup in Hnopath.
      rewrite (Hnopath i x Hi) in Hpath. discriminate Hpath.
  - intros Hres.
    by rewrite (last_resolving_only _ _ _ _ _ file (Hone _) Hfile Hres).
Qed.

End GetNotesMore.

(** X1 on the vault where the only link is not a share link. *)
Lemma getNotes_unmatched_documents_witness :
  fst (getNotes Sample.parseExistingShareUrl
         (with_markdownFiles [Sample.note "x.md"] Sample.garbage_link))
  = Js.Return [Sample.item "a"; Sample.item "b"; Sample.item "c"].
Proof.
  apply getNotes_unmatched_documents; [reflexivity|].
  intros f k ->%list_elem_of_singleton Hres. vm_compute in Hres. discriminate Hres.
Defined.


(** X3 on the specification's example. *)
Lemma getNotes_idempotent_witness :
  fst (getNotes Sample.parseExistingShareUrl
         (with_accountNotes
            (Js.Return [Sample.item "a";
                        NoteItem.mk "b" "2024-01-01" (Some "y.md");
                        Sample.item "c"])
            Sample.one_document))
  = Js.Return [Sample.item "a";
               NoteItem.mk "b" "2024-01-01" (Some "y.md");
               Sample.item "c"].
Proof.
  apply (getNotes_idempotent Sample.parseExistingShareUrl Sample.one_document
           [Sample.item "a"; Sample.item "b"; Sample.item "c"]).
  - reflexivity.
  - vm_compute. reflexivity.
Defined.

(** At most one document of the specification's example resolves to each
    id. *)
Lemma one_document_resolves_once k :
  length (filter (λ f, resolve Sample.parseExistingShareUrl
                         (World.metadataCache Sample.one_document)
                         (field_link (World.settings Sample.one_document)) f
                       = Some k)
            (World.markdownFiles Sample.one_document)) ≤ 1.
Proof.
  simpl. rewrite filter_cons, decide_False; [|by vm_compute].
  rewrite filter_cons. case_decide; simpl; lia.
Qed.

(** X4 on the specification's example, the vault listed backwards. *)
Lemma getNotes_order_irrelevant_witness :
  fst (getNotes Sample.parseExistingShareUrl
         (with_markdownFiles [Sample.note "y.md"; Sample.note "x.md"]
            Sample.one_document))
  = fst (getNotes Sample.parseExistingShareUrl Sample.one_document).
Proof.
  apply (getNotes_order_irrelevant Sample.parseExistingShareUrl Sample.one_document
           [Sample.item "a"; Sample.item "b"; Sample.item "c"]).
  - reflexivity.
  - apply Permutation_swap.
  - apply one_document_resolves_once.
Defined.

(** X5 on the specification's example. *)
Lemma getNotes_exact_join_witness :
  ∃ result,
    fst (getNotes Sample.parseExistingShareUrl Sample.one_document) = Js.Return result
    ∧ ∀ item file, item ∈ result → file ∈ World.markdownFiles Sample.one_document →
        NoteItem.path item = Some (TFile.path file)
        ↔ resolve Sample.parseExistingShareUrl
            (World.metadataCache Sample.one_document)
            (field_link (World.settings Sample.one_document)) file
          = Some (NoteItem.id item).
Proof.
  apply (getNotes_exact_join Sample.parseExistingShareUrl Sample.one_document
           [Sample.item "a"; Sample.item "b"; Sample.item "c"]).
  - reflexivity.
  - apply (bool_decide_unpack _). vm_compute. reflexivity.
  - repeat constructor.
  - apply one_document_resolves_once.
Defined.

(* ================================================================= *)
(** * Further properties of the plugin class *)

Section SharePluginMore.

Variable DEFAULT_SETTINGS : ShareSettings.t.
Variable hash : string → string.
Variable share : Note.t → M unit.

Local Abbreviation onload := (onload DEFAULT_SETTINGS hash).
Local Abbreviation loadSettings := (loadSettings DEFAULT_SETTINGS).
Local Abbreviation uploadNote := (uploadNote share).
Local Abbreviation copyShareLink := (copyShareLink share).

Implicit Types (w : World.t) (file : TFile.t) (p : Plugin.t).

(** X6. When the share operation succeeds, [uploadNote] shows no message
    of its own: it leaves the state as the share operation left it, but for
    hiding the status. *)
Theorem uploadNote_after_success forceUpload forceClipboard w w1 :
  share (Note.mk forceUpload forceClipboard) w = (Js.Return tt, w1) →
  uploadNote forceUpload forceClipboard w = (Js.Return tt, hidden w1)
  ∧ events_since w1 (snd (uploadNote forceUpload forceClipboard w)) = [StatusHide].
Proof.
  intros Hshare. rewrite uploadNote_run, Hshare, status_hide_run. simpl.
  split; [done|]. by apply events_since_app.
Qed.

(** [copyShareLink], by the link it finds. *)
Lemma copyShareLink_run file w :
  copyShareLink file w =
    if has_shareLink w file then
      (Js.Return tt,
       World.emit (StatusMessage "Shared link copied to clipboard" None)
         (World.emit (ClipboardWrite (default "" (shareLink_of w file))) w))
    else uploadNote false true w.
Proof.
  unfold copyShareLink, has_shareLink, shareLink_of, getFileCache. run_M. simpl.
  destruct (frontmatter_get _ _) as [value|]; [|done].
  by destruct (Js.truthy value).
Qed.

(** X8. On its upload path [copyShareLink] does not hand the file on: for
    two files without a usable stored link it does the same thing, the
    share of the note in the editor. *)
Theorem copyShareLink_ignores_file file file' w :
  has_shareLink w file = false →
  has_shareLink w file' = false →
  copyShareLink file w = copyShareLink file' w.
Proof. intros Hfile Hfile'. by rewrite !copyShareLink_run, Hfile, Hfile'. Qed.

(** X9. Settings survive a save and a load: after [saveSettings], whatever
    the defaults are, [loadSettings] gives back the settings that were
    saved. *)
Theorem saveSettings_loadSettings w :
  ∃ w1 w2,
    saveSettings w = (Js.Return tt, w1)
    ∧ loadSettings w1 = (Js.Return tt, w2)
    ∧ World.settings w2 = World.settings w
    ∧ World.data w2 = Some (SavedData.of_settings (World.settings w)).
Proof.
  eexists _, _. split; [reflexivity|]. split; [reflexivity|]. simpl.
  split; [|done]. by destruct (World.settings w).
Qed.

(** X11. The protocol handler does nothing at all unless the action is
    'share-note', the key is there and not empty, and the settings tab has
    built its API key field. *)
Theorem protocolHandler_rejects data p :
  ProtocolData.action data ≠ "share-note"
  ∨ (∀ key, ProtocolData.key data = Some key → key = "")
  ∨ Plugin.apikeyEl p = None →
  protocolHandler data p = (Js.Return tt, p).
Proof.
  unfold protocolHandler. intros Hguard.
  destruct (String.eqb _ _) eqn:Haction; [|done].
  apply String.eqb_eq in Haction.
  destruct (ProtocolData.key data) as [key|]; [|done].
  destruct (Js.truthy key) eqn:Hkey; [|done].
  apply truthy_true in Hkey.
  destruct (Plugin.apikeyEl p); [|done].
  destruct Hguard as [Hguard|[Hguard|Hguard]]; [done| |done].
  by destruct Hkey, (Hguard key).
Qed.

(** X12. When the handler accepts a key it stores it in the settings and
    saves them, shows it in the API key field, and announces the
    connection for six seconds; the other settings, the uid among them,
    stay as they were. *)
Theorem protocolHandler_accepts data p key shown :
  ProtocolData.action data = "share-note" →
  ProtocolData.key data = Some key →
  key ≠ "" →
  Plugin.apikeyEl p = Some shown →
  ∃ p',
    protocolHandler data p = (Js.Return tt, p')
    ∧ World.settings (Plugin.world p')
      = set_apiKey (World.settings (Plugin.world p)) key
    ∧ ShareSettings.uid (World.settings (Plugin.world p'))
      = ShareSettings.uid (World.settings (Plugin.world p))
    ∧ World.data (Plugin.world p')
      = Some (SavedData.of_settings (World.settings (Plugin.world p')))
    ∧ events_since (Plugin.world p) (Plugin.world p')
      = [SaveData (SavedData.of_settings (World.settings (Plugin.world p')))]
    ∧ Plugin.apikeyEl p' = Some key
    ∧ Plugin.notices p' =
        Plugin.notices p ++
        [TimedNotice.mk
           "Plugin successfully connected. You can now start sharing notes!"
           StatusType_Success 6000].
Proof.
  intros Haction Hdata Hkey Hel. unfold protocolHandler.
  rewrite Haction, Hdata, Hel. simpl.
  rewrite (proj2 (truthy_true key) Hkey).
  eexists. split; [reflexivity|]. simpl. split_and!; try done.
  by apply events_since_app.
Qed.

(** X13. A key that the handler accepted survives a restart: the next
    [onload] finds it in the settings, and leaves the settings alone when
    they have a uid. *)
Theorem protocolHandler_then_onload data p key shown :
  ProtocolData.action data = "share-note" →
  ProtocolData.key data = Some key →
  key ≠ "" →
  Plugin.apikeyEl p = Some shown →
  ∃ p',
    protocolHandler data p = (Js.Return tt, p')
    ∧ ∃ w',
        onload (Plugin.world p') = (Js.Return tt, w')
        ∧ ShareSettings.apiKey (World.settings w') = key
        ∧ (ShareSettings.uid (World.settings (Plugin.world p)) ≠ "" →
           World.settings w' = World.settings (Plugin.world p')).
Proof.
  intros Haction Hdata Hkey Hel. unfold protocolHandler.
  rewrite Haction, Hdata, Hel. simpl.
  rewrite (proj2 (truthy_true key) Hkey).
  eexists. split; [reflexivity|]. simpl.
  rewrite onload_run. simpl.
  destruct (Js.truthy (ShareSettings.uid _)) eqn:Huid;
    eexists; (split; [reflexivity|]); simpl; (split; [done|]).
  - done.
  - intros Hset. apply truthy_true in Hset. congruence.
Qed.

(** X14. The entry that the file menu gets for a markdown file copies that
    file's link: when the file's frontmatter holds a non-empty link, a
    click on the last entry of the menu writes exactly that link to the
    clipboard, shows the notice, and does nothing else. *)
Theorem file_menu_click_copies menu file link w :
  TFile.extension file = "md" →
  shareLink_of w file = Some link →
  link ≠ "" →
  ∃ entry,
    last (file_menu share menu (AbstractFile file)) = Some entry
    ∧ MenuItem.title entry = "Copy shared link"
    ∧ MenuItem.onClick entry w =
        (Js.Return tt,
         World.emit (StatusMessage "Shared link copied to clipboard" None)
           (World.emit (ClipboardWrite link) w)).
Proof.
  intros Hext Hlink Hne. unfold file_menu. rewrite Hext. simpl.
  eexists. split; [apply last_snoc|]. simpl. split; [done|].
  rewrite copyShareLink_run. unfold has_shareLink. rewrite Hlink. simpl.
  by rewrite (proj2 (truthy_true link) Hne).
Qed.

(** X15. Folders and files that are not markdown get no entry: the menu
    is left as it was. *)
Theorem file_menu_skips (menu : list MenuItem.t) (target : TAbstractFile) :
  (∀ f, target = AbstractFile f → TFile.extension f ≠ "md") →
  file_menu share menu target = menu.
Proof.
  intros Hskip. destruct target as [f|path]; simpl; [|done].
  destruct (String.eqb _ _) eqn:Hext; [|done].
  apply String.eqb_eq in Hext. by destruct (Hskip f).
Qed.

(** [uploadNote] with a share operation that does not throw [undefined]
    or [null]. *)
Lemma uploadNote_settles forceUpload forceClipboard w :
  (∀ thrown w1, share (Note.mk forceUpload forceClipboard) w = (Js.Throw thrown, w1) →
                ¬ nullish thrown) →
  ∃ w',
    uploadNote forceUpload forceClipboard w = (Js.Return tt, w')
    ∧ World.statusVisible w' = false
    ∧ (∀ w1, share (Note.mk forceUpload forceClipboard) w = (Js.Return tt, w1) →
             w' = hidden w1).
Proof.
  intros Hthrown. rewrite uploadNote_run.
  destruct (share _ w) as [[[]|thrown] w1].
  - rewrite status_hide_run. eexists. split; [done|]. split; [done|].
    by intros ? [= <-].
  - specialize (Hthrown thrown w1 eq_refl).
    destruct (Js.read_message thrown) as [[message|]|error] eqn:Hread.
    + destruct (String.eqb _ _); rewrite status_hide_run; eexists;
        (split; [done|]); (split; [done|]); by intros ? [=].
    + rewrite status_hide_run. eexists. split; [done|]. split; [done|].
      by intros ? [=].
    + destruct Hthrown. apply read_message_nullish. eauto.
Qed.

(** X16. Unless the share operation throws [undefined] or [null], neither
    command fails: both callbacks return normally with the status hidden,
    and when the share operation succeeds on the note they hand it (the
    clipboard not forced; the upload forced by 'force-upload' only) the
    final state is that of the share operation with the status hidden. *)
Theorem commands_return w :
  (∀ forceUpload thrown w1,
     share (Note.mk forceUpload false) w = (Js.Throw thrown, w1) → ¬ nullish thrown) →
  (∃ w',
     command_share_note share w = (Js.Return tt, w')
     ∧ World.statusVisible w' = false
     ∧ (∀ w1, share (Note.mk false false) w = (Js.Return tt, w1) → w' = hidden w1))
  ∧ (∃ w',
       command_force_upload share w = (Js.Return tt, w')
       ∧ World.statusVisible w' = false
       ∧ (∀ w1, share (Note.mk true false) w = (Js.Return tt, w1) → w' = hidden w1)).
Proof.
  intros Hthrown. unfold command_share_note, command_force_upload.
  split; apply uploadNote_settles; apply Hthrown.
Qed.

End SharePluginMore.

(** ** The further properties on the sample states *)

(** X6 on a share that uploads and returns. *)
Lemma uploadNote_after_success_witness :
  uploadNote Sample.uploading false false Sample.never_shared
  = (Js.Return tt,
     hidden (World.emit (ApiUpload "d.md" None) Sample.never_shared))
  ∧ events_since (World.emit (ApiUpload "d.md" None) Sample.never_shared)
      (snd (uploadNote Sample.uploading false false Sample.never_shared))
    = [StatusHide].
Proof.
  apply (uploadNote_after_success Sample.uploading false false Sample.never_shared).
  reflexivity.
Defined.

(** X8: asked for either of two unshared files, [copyShareLink] runs the
    same share. *)
Lemma copyShareLink_ignores_file_witness :
  copyShareLink Sample.uploading (Sample.note "x.md") Sample.never_shared
  = copyShareLink Sample.uploading (Sample.note "z.md") Sample.never_shared.
Proof.
  apply copyShareLink_ignores_file.
  - reflexivity.
  - reflexivity.
Defined.

(** X10 on the first start: the second start keeps the minted uid. *)
Lemma onload_keeps_minted_uid_witness :
  ∃ w'',
    onload Sample.settings Sample.hash
      (snd (onload Sample.settings Sample.hash Sample.first_start))
    = (Js.Return tt, w'')
    ∧ ShareSettings.uid (World.settings w'') = "sha256:17000000000000.25".
Proof.
  destruct (onload_keeps_minted_uid Sample.settings Sample.hash
              Sample.first_start
              (snd (onload Sample.settings Sample.hash Sample.first_start)))
    as (w'' & Hrun & Hsettings & _).
  - reflexivity.
  - reflexivity.
  - exists w''. split; [exact Hrun|]. rewrite Hsettings. reflexivity.
Defined.

(** X11: a URI of another action, and a key that arrives before the
    settings tab was displayed. *)
Lemma protocolHandler_rejects_witness :
  protocolHandler SamplePlugin.foreign SamplePlugin.displayed
  = (Js.Return tt, SamplePlugin.displayed)
  ∧ protocolHandler SamplePlugin.connect SamplePlugin.undisplayed
    = (Js.Return tt, SamplePlugin.undisplayed).
Proof.
  split.
  - apply protocolHandler_rejects. left. discriminate.
  - apply protocolHandler_rejects. right. right. reflexivity.
Defined.

(** X12: the key of the URI is stored, saved and shown. *)
Lemma protocolHandler_accepts_witness :
  ∃ p',
    protocolHandler SamplePlugin.connect SamplePlugin.displayed = (Js.Return tt, p')
    ∧ ShareSettings.apiKey (World.settings (Plugin.world p')) = "k-123"
    ∧ ShareSettings.uid (World.settings (Plugin.world p'))
      = "sha256:17000000000000.25"
    ∧ Plugin.apikeyEl p' = Some "k-123".
Proof.
  destruct (protocolHandler_accepts SamplePlugin.connect SamplePlugin.displayed
              "k-123" "")
    as (p' & Hrun & Hsettings & Huid & _ & _ & Hel & _).
  - reflexivity.
  - reflexivity.
  - discriminate.
  - reflexivity.
  - exists p'. split; [exact Hrun|]. split; [by rewrite Hsettings|].
    split; [by rewrite Huid|exact Hel].
Defined.

(** X13: the key is there after the next start. *)
Lemma protocolHandler_then_onload_witness :
  ∃ p',
    protocolHandler SamplePlugin.connect SamplePlugin.displayed = (Js.Return tt, p')
    ∧ ∃ w',
        onload Sample.settings Sample.hash (Plugin.world p') = (Js.Return tt, w')
        ∧ ShareSettings.apiKey (World.settings w') = "k-123".
Proof.
  destruct (protocolHandler_then_onload Sample.settings Sample.hash
              SamplePlugin.connect SamplePlugin.displayed "k-123" "")
    as (p' & Hrun & w' & Hload & Hkey & _).
  - reflexivity.
  - reflexivity.
  - discriminate.
  - reflexivity.
  - exists p'. split; [exact Hrun|]. exists w'. by split.
Defined.

(** X14: the entry added for the shared note copies its link. *)
Lemma file_menu_click_copies_witness :
  ∃ entry,
    last (file_menu Sample.uploading [] (AbstractFile (Sample.note "d.md")))
    = Some entry
    ∧ MenuItem.title entry = "Copy shared link"
    ∧ MenuItem.onClick entry Sample.shared =
        (Js.Return tt,
         World.emit (StatusMessage "Shared link copied to clipboard" None)
           (World.emit (ClipboardWrite "https://host/n1") Sample.shared)).
Proof.
  apply (file_menu_click_copies Sample.uploading [] (Sample.note "d.md")
           "https://host/n1" Sample.shared).
  - reflexivity.
  - reflexivity.
  - discriminate.
Defined.

(** X15: a folder and a canvas file get no entry. *)
Lemma file_menu_skips_witness :
  file_menu Sample.uploading [] (AbstractFolder "notes") = []
  ∧ file_menu Sample.uploading [] (AbstractFile (TFile.mk "board.canvas" "canvas"))
    = [].
Proof.
  split.
  - apply file_menu_skips. intros f Hf. discriminate Hf.
  - apply file_menu_skips. intros f [= <-]. discriminate.
Defined.

(** ** Growing the vault *)

Section GetNotesGrowth.

Variable parseExistingShareUrl : string → option SharedUrl.t.

Local Abbreviation getNotes := (getNotes parseExistingShareUrl).

(** One document touches at most one row, and the array keeps its
    length. *)
Lemma visit_one_row cache key (l : list NoteItem.t) (f : TFile.t) :
  length (visit parseExistingShareUrl cache key l f) = length l
  ∧ ∃ i, ∀ j, j ≠ i → visit parseExistingShareUrl cache key l f !! j = l !! j.
Proof.
  rewrite visit_resolve.
  destruct (resolve _ _ _ f) as [k|]; [|split; [done|by exists 0]].
  unfold annotate.
  destruct (list_find _ l) as [[i row]|]; [|split; [done|by exists 0]].
  split; [apply length_insert|]. exists i. intros j Hj.
  by apply list_lookup_insert_ne.
Qed.

(** X17. One more document at the end of the vault changes at most one
    returned item; every other item, and the length of the result, is as
    without that document. *)
Theorem getNotes_one_more_document w fetched f :
  World.accountNotes w = Js.Return fetched →
  ∃ result result',
    fst (getNotes w) = Js.Return result
    ∧ fst (getNotes (with_markdownFiles (World.markdownFiles w ++ [f]) w))
      = Js.Return result'
    ∧ length result' = length result
    ∧ ∃ i, ∀ j, j ≠ i → result' !! j = result !! j.
Proof.
  intros Hfetch. eexists _, _.
  split; [by rewrite (getNotes_fetched _ w fetched Hfetch)|].
  split.
  { rewrite (getNotes_fetched _ (with_markdownFiles _ w) fetched Hfetch). simpl.
    rewrite foldl_app. reflexivity. }
  apply visit_one_row.
Qed.

End GetNotesGrowth.

(** X17 on the vault with the garbage link, listing one of its documents
    once more. *)
Lemma getNotes_one_more_document_witness :
  ∃ result result',
    fst (getNotes Sample.parseExistingShareUrl Sample.garbage_link)
    = Js.Return result
    ∧ fst (getNotes Sample.parseExistingShareUrl
             (with_markdownFiles
                (World.markdownFiles Sample.garbage_link ++ [Sample.note "x.md"])
                Sample.garbage_link))
      = Js.Return result'
    ∧ length result' = length result
    ∧ ∃ i, ∀ j, j ≠ i → result' !! j = result !! j.
Proof.
  apply (getNotes_one_more_document Sample.parseExistingShareUrl
           Sample.garbage_link [Sample.item "a"; Sample.item "b"; Sample.item "c"]).
  reflexivity.
Defined.

(** X16 on a share that fails with an error object. *)
Lemma commands_return_witness :
  (∃ w',
     command_share_note (Sample.failing "Network error") Sample.never_shared
     = (Js.Return tt, w')
     ∧ World.statusVisible w' = false)
  ∧ (∃ w',
       command_force_upload (Sample.failing "Network error") Sample.never_shared
       = (Js.Return tt, w')
       ∧ World.statusVisible w' = false).
Proof.
  destruct (commands_return (Sample.failing "Network error") Sample.never_shared)
    as [(w1 & Hrun1 & Hhidden1 & _) (w2 & Hrun2 & Hhidden2 & _)].
  - intros forceUpload thrown w1 [= <- _] [Hnull|Hnull]; discriminate Hnull.
  - split; eauto.
Defined.

(** X18 on the share that rejects with no reason. *)
Lemma uploadNote_throws_on_nullish_witness :
  uploadNote Sample.rejecting_undefined true false Sample.never_shared
  = (Js.Throw (Js.TypeError_reading "undefined" "message"),
     World.set_statusVisible true Sample.never_shared).
Proof.
  apply (uploadNote_throws_on_nullish Sample.rejecting_undefined true false
           Sample.never_shared Js.Undefined).
  - reflexivity.
  - left. reflexivity.
Defined.

(** X19 on a share that fails with an error object. *)
Lemma uploadNote_hides_status_unless_nullish_witness :
  ∃ w',
    uploadNote (Sample.failing "Network error") false false Sample.never_shared
    = (Js.Return tt, w')
    ∧ World.statusVisible w' = false
    ∧ last (World.events w') = Some StatusHide.
Proof.
  apply uploadNote_hides_status_unless_nullish.
  intros thrown w1 [= <- _] [Hnull|Hnull]; discriminate Hnull.
Defined.
